(** * Qtscope: the QuantumTelescope component of [src/Code.jsx]

    A shallow embedding of the React component: the target table, the
    log sink, the simulated IBM session with its two [setTimeout]
    callbacks, the image loader effect and the canvas pixel loop.

    Modelling conventions.
    - The pixel algorithm is modelled twice.  [Binary64] is the
      algorithm with the Numbers of the source, IEEE 754 binary64
      (the kernel's primitive floats): sums, differences and products
      round as the engine's do, [Math.sin], which ECMAScript leaves to
      the engine, is a parameter, and a store into the
      [Uint8ClampedArray] takes the exact value of the Number stored.
      Statements about the exact bytes of a frame are made there.  In
      the page model ([State], [processFrame]) Numbers are idealised
      to real numbers with exact arithmetic and the real sine; it
      carries the properties that rounding does not touch.
    - The component's hooks ([useState], [useRef]) are the fields of
      [State]; what the browser owns (the timer queue, the image
      requests in flight, the wall clock in milliseconds) sits in the
      same record, and the browser's moves are the constructors of
      [Event].
    - A state update, the render it causes and the effects of that
      render are one move: a handler always sees the state of the
      latest render, and a frame always runs with the current
      [quantumMode].
    - A timer fires when the clock reaches its due time, not later.
    - The bitmap that [drawImage] rasterises and [getImageData] reads
      back is an input of the frame: rasterisation is the browser's,
      and so is the rasterisation of the reticle, of which the model
      keeps the stroke style. *)

From Stdlib Require Import Reals Lra Lia ZArith NArith List String Ascii Bool.
From Stdlib Require Import Floats.
Import ListNotations.

(* A decimal literal of a Number denotes the nearest binary64 value, as
   it does in JavaScript. *)
Set Warnings "-inexact-float".

Open Scope R_scope.

(** ** JavaScript semantics used by the component *)

Module Js.

(** [Math.min] and [Math.max] on two finite Numbers. *)
Definition Math_min (a b : R) : R := Rmin a b.
Definition Math_max (a b : R) : R := Rmax a b.

(** [ToUint8Clamp], the conversion applied by every store into a
    [Uint8ClampedArray]: clamp between 0 and 255, take the floor [f],
    and return [f] or [f + 1], whichever is nearer, the even one on a
    tie. *)
Definition ToUint8Clamp (number : R) : Z :=
  let clamped := Rmax 0 (Rmin 255 number) in
  let f := Int_part clamped in
  if Rlt_dec clamped (IZR f + 0.5) then f
  else if Rlt_dec (IZR f + 0.5) clamped then (f + 1)%Z
  else if Z.even f then f else (f + 1)%Z.

(** [Array.prototype.slice(0, n)]. *)
Definition slice0 {A : Type} (n : nat) (l : list A) : list A := firstn n l.

End Js.

(** The clamp of the specification, [clamp(x, lo, hi)]. *)
Definition clamp (x lo hi : R) : R := Rmax lo (Rmin hi x).

(** [z] is the integer nearest to [x], the even one when [x] lies
    halfway between two integers. *)
Definition nearest_ties_even (x : R) (z : Z) : Prop :=
  Rabs (x - IZR z) <= 0.5 /\ (Rabs (x - IZR z) = 0.5 -> Z.even z = true).

(** ** Configuration: the [TARGETS] table *)

Inductive Target : Type := MOON | JUPITER | SATURN | MARS.

Record TargetInfo : Type := mkTargetInfo {
  url : string;
  ra : string;
  dec : string;
  dist : string
}.

(** The double quote that closes the arc seconds of a declination. *)
Definition dquote : string := String (ascii_of_nat 34) EmptyString.

Definition TARGETS (t : Target) : TargetInfo :=
  match t with
  | MOON => mkTargetInfo
      "https://upload.wikimedia.org/wikipedia/commons/thumb/1/1a/Tycho_crater_on_the_Moon_-_LRO_WAC.jpg/600px-Tycho_crater_on_the_Moon_-_LRO_WAC.jpg"
      "05h 12m 14s" ("+18° 12' 09" ++ dquote) "384,400 km"
  | JUPITER => mkTargetInfo
      "https://upload.wikimedia.org/wikipedia/commons/e/e2/Jupiter.jpg"
      "01h 45m 22s" ("+10° 20' 44" ++ dquote) "714,000,000 km"
  | SATURN => mkTargetInfo
      "https://upload.wikimedia.org/wikipedia/commons/c/c7/Saturn_during_Equinox.jpg"
      "22h 30m 11s" ("-15° 45' 10" ++ dquote) "1,400,000,000 km"
  | MARS => mkTargetInfo
      "https://upload.wikimedia.org/wikipedia/commons/0/02/OSIRIS_Mars_true_color.jpg"
      "14h 22m 10s" ("-12° 10' 05" ++ dquote) "225,000,000 km"
  end.

(** The key of a target, as [Object.keys(TARGETS)] lists it. *)
Definition targetName (t : Target) : string :=
  match t with
  | MOON => "MOON"
  | JUPITER => "JUPITER"
  | SATURN => "SATURN"
  | MARS => "MARS"
  end.

Definition Target_eqb (a b : Target) : bool :=
  match a, b with
  | MOON, MOON | JUPITER, JUPITER | SATURN, SATURN | MARS, MARS => true
  | _, _ => false
  end.

(** ** Component state *)

Inductive Status : Type := DISCONNECTED | CONNECTING | QUEUED | ACTIVE.

(** A line of the log: one of the two initial lines, or the template
    string [[${new Date().toLocaleTimeString()}] ${msg}], kept as the
    clock reading and the message. *)
Inductive LogEntry : Type :=
| Boot (text : string)
| Stamped (time : nat) (msg : string).

(** A decoded [Image]: where it came from and its natural size. *)
Record Image : Type := mkImage {
  src : string;
  naturalWidth : nat;
  naturalHeight : nat
}.

(** The canvas element.  [surface] is the RGBA buffer last written by
    [putImageData] ([None]: the blank surface of a fresh canvas);
    [hud] is the stroke style of the reticle drawn over it. *)
Record Canvas : Type := mkCanvas {
  width : nat;
  height : nat;
  surface : option (list Z);
  hud : option string
}.

(** The arrow functions handed to [setTimeout]: the outer one (job
    queued) and the inner one (QPU allocated). *)
Inductive Callback : Type := OnQueued | OnAllocated.

Record State : Type := mkState {
  (* useState *)
  target : Target;
  quantumMode : bool;
  ibmStatus : Status;
  logs : list LogEntry;
  ephemeris : TargetInfo;
  (* useRef *)
  canvasRef : option Canvas;
  requestRef : bool;          (* an animation frame request is pending *)
  phaseRef : R;
  imageRef : option Image;
  (* the browser *)
  clock : nat;                         (* milliseconds *)
  timers : list (nat * Callback);      (* due time, callback; oldest first *)
  loading : list Target                (* image requests in flight *)
}.

Definition set_target (v : Target) (s : State) : State :=
  mkState v (quantumMode s) (ibmStatus s) (logs s) (ephemeris s) (canvasRef s)
    (requestRef s) (phaseRef s) (imageRef s) (clock s) (timers s) (loading s).
Definition set_quantumMode (v : bool) (s : State) : State :=
  mkState (target s) v (ibmStatus s) (logs s) (ephemeris s) (canvasRef s)
    (requestRef s) (phaseRef s) (imageRef s) (clock s) (timers s) (loading s).
Definition set_ibmStatus (v : Status) (s : State) : State :=
  mkState (target s) (quantumMode s) v (logs s) (ephemeris s) (canvasRef s)
    (requestRef s) (phaseRef s) (imageRef s) (clock s) (timers s) (loading s).
Definition set_logs (v : list LogEntry) (s : State) : State :=
  mkState (target s) (quantumMode s) (ibmStatus s) v (ephemeris s) (canvasRef s)
    (requestRef s) (phaseRef s) (imageRef s) (clock s) (timers s) (loading s).
Definition set_ephemeris (v : TargetInfo) (s : State) : State :=
  mkState (target s) (quantumMode s) (ibmStatus s) (logs s) v (canvasRef s)
    (requestRef s) (phaseRef s) (imageRef s) (clock s) (timers s) (loading s).
Definition set_canvasRef (v : option Canvas) (s : State) : State :=
  mkState (target s) (quantumMode s) (ibmStatus s) (logs s) (ephemeris s) v
    (requestRef s) (phaseRef s) (imageRef s) (clock s) (timers s) (loading s).
Definition set_requestRef (v : bool) (s : State) : State :=
  mkState (target s) (quantumMode s) (ibmStatus s) (logs s) (ephemeris s) (canvasRef s)
    v (phaseRef s) (imageRef s) (clock s) (timers s) (loading s).
Definition set_phaseRef (v : R) (s : State) : State :=
  mkState (target s) (quantumMode s) (ibmStatus s) (logs s) (ephemeris s) (canvasRef s)
    (requestRef s) v (imageRef s) (clock s) (timers s) (loading s).
Definition set_imageRef (v : option Image) (s : State) : State :=
  mkState (target s) (quantumMode s) (ibmStatus s) (logs s) (ephemeris s) (canvasRef s)
    (requestRef s) (phaseRef s) v (clock s) (timers s) (loading s).
Definition set_clock (v : nat) (s : State) : State :=
  mkState (target s) (quantumMode s) (ibmStatus s) (logs s) (ephemeris s) (canvasRef s)
    (requestRef s) (phaseRef s) (imageRef s) v (timers s) (loading s).
Definition set_timers (v : list (nat * Callback)) (s : State) : State :=
  mkState (target s) (quantumMode s) (ibmStatus s) (logs s) (ephemeris s) (canvasRef s)
    (requestRef s) (phaseRef s) (imageRef s) (clock s) v (loading s).
Definition set_loading (v : list Target) (s : State) : State :=
  mkState (target s) (quantumMode s) (ibmStatus s) (logs s) (ephemeris s) (canvasRef s)
    (requestRef s) (phaseRef s) (imageRef s) (clock s) (timers s) v.

(** The values the hooks start from, before the component is mounted. *)
Definition initialLogs : list LogEntry :=
  [Boot ">> SYSTEM INITIALIZED"; Boot ">> TELESCOPE LINK ESTABLISHED"].

Definition initial : State :=
  mkState MOON false DISCONNECTED initialLogs (TARGETS MOON)
    None false 0 None 0%nat [] [].

(** ** Logging *)

(** The updater [prev => [entry, ...prev].slice(0, 10)]. *)
Definition logUpdater (entry : LogEntry) (prev : list LogEntry) : list LogEntry :=
  Js.slice0 10 (entry :: prev).

Arguments logUpdater : simpl never.

Definition addLog (msg : string) (s : State) : State :=
  set_logs (logUpdater (Stamped (clock s) msg) (logs s)) s.

(** A run of appends, oldest append first. *)
Definition appendAll (entries : list LogEntry) (prev : list LogEntry) : list LogEntry :=
  fold_left (fun l e => logUpdater e l) entries prev.

(** ** The animation-frame effect

    [useEffect(..., [processFrame])] with [processFrame] memoised on
    [quantumMode]: whenever the flag changes value, the pending request
    is cancelled and a new one is made for the new closure. *)
Definition frameLoopEffect (s : State) : State := set_requestRef true s.

(** [setQuantumMode(v)]: a state update that does not change the value
    is dropped by React; one that does re-runs the frame effect. *)
Definition setQuantumMode (v : bool) (s : State) : State :=
  if Bool.eqb v (quantumMode s) then s
  else frameLoopEffect (set_quantumMode v s).

(** The QUANTUM FILTER button: [setQuantumMode(!quantumMode)]. *)
Definition toggleQuantumMode (s : State) : State :=
  setQuantumMode (negb (quantumMode s)) s.

(** ** 1. IBM Quantum connection handler *)

Definition setTimeout (cb : Callback) (delay : nat) (s : State) : State :=
  set_timers (timers s ++ [((clock s + delay)%nat, cb)]) s.

Definition connectToIBM (s : State) : State :=
  match ibmStatus s with
  | ACTIVE =>
      addLog "IBM QUANTUM SESSION TERMINATED." (set_ibmStatus DISCONNECTED s)
  | _ =>
      setTimeout OnQueued 1500
        (addLog ">> HANDSHAKE: IBM QUANTUM CLOUD..." (set_ibmStatus CONNECTING s))
  end.

(** The bodies of the two timer callbacks. *)
Definition runCallback (cb : Callback) (s : State) : State :=
  match cb with
  | OnQueued =>
      setTimeout OnAllocated 2000
        (addLog ">> AUTHENTICATED. JOB QUEUED: ibmq_manila (5 Qubits)"
           (set_ibmStatus QUEUED s))
  | OnAllocated =>
      setQuantumMode true
        (addLog ">> QPU ALLOCATED. QUANTUM KERNEL RUNNING."
           (set_ibmStatus ACTIVE s))
  end.

(** ** 2. Image loader *)

(** The effect on [target]: a new [Image] starts loading from the
    target's url, and the slew is logged. *)
Definition imageLoaderEffect (s : State) : State :=
  addLog ("SLEWING TELESCOPE TO " ++ targetName (target s) ++ "...")
    (set_loading (loading s ++ [target s]) s).

(** A toolbar button: [setTarget(t)].  Selecting the current target
    changes nothing and runs no effect. *)
Definition selectTarget (t : Target) (s : State) : State :=
  if Target_eqb t (target s) then s
  else imageLoaderEffect (set_target t s).

(** [img.onload] of the request made for target [t], the image having
    decoded to [w] by [h] pixels. *)
Definition onload (t : Target) (w h : nat) (s : State) : State :=
  addLog ("TRACKING LOCK: " ++ targetName t)
    (set_ephemeris (TARGETS t)
       (set_imageRef (Some (mkImage (url (TARGETS t)) w h)) s)).

(** Removes the first request for [t] from the requests in flight. *)
Fixpoint settle (t : Target) (l : list Target) : option (list Target) :=
  match l with
  | [] => None
  | x :: rest =>
      if Target_eqb t x then Some rest
      else option_map (cons x) (settle t rest)
  end.

(** ** 3. The pixel algorithm (canvas loop) *)

(** [Math.sin((i * 0.01) + phase) * 20], [i] the loop variable. *)
Definition noise (i : nat) (phase : R) : R := sin (INR i * 0.01 + phase) * 20.

(** The three stores of one iteration of the loop body. *)
Definition shadeRed (quantumMode : bool) (noise : R) (r : Z) : Z :=
  if quantumMode then Js.ToUint8Clamp (Js.Math_min 255 (IZR r + 10))
  else Js.ToUint8Clamp (Js.Math_max 0 (IZR r + noise)).
Definition shadeGreen (quantumMode : bool) (noise : R) (g : Z) : Z :=
  if quantumMode then Js.ToUint8Clamp (Js.Math_min 255 (IZR g + 40 - noise))
  else Js.ToUint8Clamp (Js.Math_max 0 (IZR g + noise)).
Definition shadeBlue (quantumMode : bool) (noise : R) (b : Z) : Z :=
  if quantumMode then Js.ToUint8Clamp (Js.Math_min 255 (IZR b + 50 - noise))
  else Js.ToUint8Clamp (Js.Math_max 0 (IZR b + noise)).

(** [for (let i = 0; i < data.length; i += 4) { ... }], entered at
    index [i] with [data] the part of the buffer from [i] on.  The
    alpha byte is not touched.  A buffer that stops inside a pixel
    (an [ImageData] never does) keeps its length: stores past the end
    of a typed array are dropped. *)
Fixpoint pixelShader (quantumMode : bool) (phase : R) (i : nat) (data : list Z)
  : list Z :=
  match data with
  | r :: g :: b :: a :: rest =>
      shadeRed quantumMode (noise i phase) r
        :: shadeGreen quantumMode (noise i phase) g
        :: shadeBlue quantumMode (noise i phase) b
        :: a :: pixelShader quantumMode phase (i + 4) rest
  | [r; g; b] =>
      [shadeRed quantumMode (noise i phase) r;
       shadeGreen quantumMode (noise i phase) g;
       shadeBlue quantumMode (noise i phase) b]
  | [r; g] =>
      [shadeRed quantumMode (noise i phase) r;
       shadeGreen quantumMode (noise i phase) g]
  | [r] => [shadeRed quantumMode (noise i phase) r]
  | [] => []
  end.

(** The stroke style of the HUD overlay. *)
Definition strokeStyle (quantumMode : bool) : string :=
  if quantumMode then "#00ffff" else "rgba(0, 255, 100, 0.5)".

(** [processFrame].  [data] is the buffer [getImageData(0, 0, w, h)]
    returns once [drawImage] has painted the image over the canvas. *)
Definition processFrame (data : list Z) (s : State) : State :=
  match canvasRef s, imageRef s with
  | Some canvas, Some img =>
      let phase := phaseRef s + 0.15 in
      let frame := pixelShader (quantumMode s) phase 0 data in
      let canvas' :=
        mkCanvas (width canvas) (height canvas) (Some frame)
          (Some (strokeStyle (quantumMode s))) in
      set_requestRef true (set_canvasRef (Some canvas') (set_phaseRef phase s))
  | _, _ => s
  end.

(** ** 3'. The pixel algorithm in binary64 *)

Module Binary64.

(** The Number whose value is the integer [z]: a byte read from the
    buffer, or the loop variable (exact below [2 ^ 53]). *)
Definition num (z : Z) : float := PrimFloat.of_uint63 (Uint63.of_Z z).

(** The value of a finite Number decoded as sign, mantissa and
    exponent: plus or minus [m * 2 ^ e]. *)
Definition signed (s : bool) (m : positive) : Z :=
  if s then Zneg m else Zpos m.

Definition real_of (s : bool) (m : positive) (e : Z) : R :=
  if (0 <=? e)%Z then IZR (signed s m * 2 ^ e)
  else IZR (signed s m) / IZR (2 ^ (- e)).

(** The value of [x] clamped between 0 and 255, as [ToUint8Clamp]
    takes it: a NaN counts as 0 and the infinities clamp. *)
Definition clamped (x : float) : R :=
  match Prim2SF x with
  | S754_nan => 0
  | S754_zero _ => 0
  | S754_infinity negative => if negative then 0 else 255
  | S754_finite s m e => clamp (real_of s m e) 0 255
  end.

(** A store into the [Uint8ClampedArray]: the clamped value, rounded
    to the nearest integer, the even one on a tie. *)
Definition ToUint8Clamp (x : float) : Z := Js.ToUint8Clamp (clamped x).

(** [Math.min] and [Math.max] of two Numbers: NaN if either is, and
    minus zero below plus zero. *)
Definition Math_min (a b : float) : float :=
  if (PrimFloat.is_nan a || PrimFloat.is_nan b)%bool then PrimFloat.nan
  else if PrimFloat.ltb a b then a
  else if PrimFloat.ltb b a then b
  else if PrimFloat.get_sign a then a else b.

Definition Math_max (a b : float) : float :=
  if (PrimFloat.is_nan a || PrimFloat.is_nan b)%bool then PrimFloat.nan
  else if PrimFloat.ltb a b then b
  else if PrimFloat.ltb b a then a
  else if PrimFloat.get_sign a then b else a.

(** The integer a Number is, if it is one. *)
Definition integer_value (x : float) : option Z :=
  match Prim2SF x with
  | S754_zero _ => Some 0%Z
  | S754_finite s m e =>
      if (0 <=? e)%Z then Some (signed s m * 2 ^ e)%Z
      else if (Zpos m mod 2 ^ (- e) =? 0)%Z then Some (signed s m / 2 ^ (- e))%Z
      else None
  | _ => None
  end.

(** Every byte plus ten is the integer it should be. *)
Definition bytes_plus_ten : bool :=
  forallb (fun k : nat =>
             match integer_value (PrimFloat.add (num (Z.of_nat k)) 10) with
             | Some n => (n =? Z.of_nat k + 10)%Z
             | None => false
             end) (seq 0 256).

Section Engine.

(** The engine's [Math.sin]. *)
Variable Math_sin : float -> float.

(** [Math.sin((i * 0.01) + phase) * 20], [i] the loop variable. *)
Definition noise (i : nat) (phase : float) : float :=
  PrimFloat.mul
    (Math_sin (PrimFloat.add (PrimFloat.mul (num (Z.of_nat i)) 0.01%float) phase))
    20.

(** The three stores of one iteration of the loop body. *)
Definition shadeRed (quantumMode : bool) (noise : float) (r : Z) : Z :=
  if quantumMode
  then ToUint8Clamp (Math_min 255 (PrimFloat.add (num r) 10))
  else ToUint8Clamp (Math_max 0 (PrimFloat.add (num r) noise)).
Definition shadeGreen (quantumMode : bool) (noise : float) (g : Z) : Z :=
  if quantumMode
  then ToUint8Clamp (Math_min 255 (PrimFloat.sub (PrimFloat.add (num g) 40) noise))
  else ToUint8Clamp (Math_max 0 (PrimFloat.add (num g) noise)).
Definition shadeBlue (quantumMode : bool) (noise : float) (b : Z) : Z :=
  if quantumMode
  then ToUint8Clamp (Math_min 255 (PrimFloat.sub (PrimFloat.add (num b) 50) noise))
  else ToUint8Clamp (Math_max 0 (PrimFloat.add (num b) noise)).

(** [for (let i = 0; i < data.length; i += 4) { ... }], entered at
    index [i] with [data] the part of the buffer from [i] on. *)
Fixpoint pixelShader (quantumMode : bool) (phase : float) (i : nat) (data : list Z)
  : list Z :=
  match data with
  | r :: g :: b :: a :: rest =>
      shadeRed quantumMode (noise i phase) r
        :: shadeGreen quantumMode (noise i phase) g
        :: shadeBlue quantumMode (noise i phase) b
        :: a :: pixelShader quantumMode phase (i + 4) rest
  | [r; g; b] =>
      [shadeRed quantumMode (noise i phase) r;
       shadeGreen quantumMode (noise i phase) g;
       shadeBlue quantumMode (noise i phase) b]
  | [r; g] =>
      [shadeRed quantumMode (noise i phase) r;
       shadeGreen quantumMode (noise i phase) g]
  | [r] => [shadeRed quantumMode (noise i phase) r]
  | [] => []
  end.

(** [phaseRef.current += 0.15]. *)
Definition advance (phaseRef : float) : float :=
  PrimFloat.add phaseRef 0.15%float.

(** The numbers of one frame that is drawn: the accumulator after its
    increment, and the buffer handed to [putImageData], [data] being
    the buffer read back from the canvas. *)
Definition frame (quantumMode : bool) (phaseRef : float) (data : list Z)
  : float * list Z :=
  let phase := advance phaseRef in
  (phase, pixelShader quantumMode phase 0 data).

End Engine.

(** A sine for sample runs: the first three terms of its series. *)
Definition sin_series (x : float) : float :=
  (x - x * x * x / 6 + x * x * x * x * x / 120)%float.

End Binary64.

(** ** The page: mounting and the events the browser delivers *)

(** First render: the canvas element is attached, then both effects
    run once. *)
Definition mount (s : State) : State :=
  frameLoopEffect
    (imageLoaderEffect
       (set_canvasRef (Some (mkCanvas 900 600 None None)) s)).

Inductive Event : Type :=
| Click_connect
| Click_toggle
| Click_target (t : Target)
| Image_load (t : Target) (w h : nat)
| Image_error (t : Target)
| Elapse (ms : nat)
| Timer_fire
| Animation_frame (data : list Z).

(** Time may pass as long as it does not run past a pending timer. *)
Definition may_elapse (ms : nat) (s : State) : bool :=
  forallb (fun t => (clock s + ms <=? fst t)%nat) (timers s).

(** The oldest timer that is due, and the queue without it. *)
Fixpoint next_due (now : nat) (q : list (nat * Callback))
  : option (Callback * list (nat * Callback)) :=
  match q with
  | [] => None
  | (due, cb) :: rest =>
      if (due <=? now)%nat then Some (cb, rest)
      else
        match next_due now rest with
        | Some (cb', rest') => Some (cb', (due, cb) :: rest')
        | None => None
        end
  end.

(** One move of the page.  [None]: the event cannot happen in [s].
    An image request that fails fires the image's [error] event, for
    which the component registers no handler. *)
Definition step (e : Event) (s : State) : option State :=
  match e with
  | Click_connect => Some (connectToIBM s)
  | Click_toggle => Some (toggleQuantumMode s)
  | Click_target t => Some (selectTarget t s)
  | Image_load t w h =>
      match settle t (loading s) with
      | Some rest => Some (onload t w h (set_loading rest s))
      | None => None
      end
  | Image_error t =>
      match settle t (loading s) with
      | Some rest => Some (set_loading rest s)
      | None => None
      end
  | Elapse ms =>
      if may_elapse ms s then Some (set_clock (clock s + ms)%nat s) else None
  | Timer_fire =>
      match next_due (clock s) (timers s) with
      | Some (cb, rest) => Some (runCallback cb (set_timers rest s))
      | None => None
      end
  | Animation_frame data =>
      if requestRef s then Some (processFrame data (set_requestRef false s))
      else None
  end.

Fixpoint run (es : list Event) (s : State) : option State :=
  match es with
  | [] => Some s
  | e :: rest =>
      match step e s with
      | Some s' => run rest s'
      | None => None
      end
  end.

(** ** Observations and sample states *)

(** The buffer on the canvas surface ([[]] when there is no canvas or
    nothing has been put on it). *)
Definition written (s : State) : list Z :=
  match canvasRef s with
  | Some canvas =>
      match surface canvas with
      | Some frame => frame
      | None => []
      end
  | None => []
  end.

(** The noise of the specification's step 4, from the pixel index. *)
Definition noise_by_pixel_index (p : nat) (phase : R) : R :=
  sin (INR p * 0.01 + phase) * 20.

(** The page once mounted; once the Moon image has loaded; and with
    the filter switched on by its button. *)
Definition mounted : State := mount initial.

Definition tracking : State := onload MOON 600 600 (set_loading [] mounted).

Definition filtering : State := toggleQuantumMode tracking.

(** The state a run of events leads to ([s] itself if the run is not
    possible). *)
Definition after (es : list Event) (s : State) : State :=
  match run es s with
  | Some s' => s'
  | None => s
  end.

(** The page with the session established, three and a half seconds
    after the CONNECT button was clicked. *)
Definition connected : State :=
  after [Click_connect; Elapse 1500; Timer_fire; Elapse 2000; Timer_fire]
    tracking.

(** Nine log lines and a tenth, older one. *)
Definition nine_lines : list LogEntry :=
  [Stamped 9 "i"; Stamped 8 "h"; Stamped 7 "g"; Stamped 6 "f"; Stamped 5 "e";
   Stamped 4 "d"; Stamped 3 "c"; Stamped 2 "b"; Stamped 1 "a"].

Definition oldest_line : LogEntry := Boot ">> SYSTEM INITIALIZED".

(** [n] copies of the pixel [px], one after the other. *)
Fixpoint fill (n : nat) (px : list Z) : list Z :=
  match n with
  | O => []
  | S n' => px ++ fill n' px
  end.

(** A frame of the 900 by 600 canvas, 540000 opaque pixels: a black
    one, a mid-grey one, and black ones to the end. *)
Definition sample_frame : list Z :=
  [0; 0; 0; 255; 100; 100; 100; 255]%Z
    ++ fill (N.to_nat 539998) [0; 0; 0; 255]%Z.


(** ** More sample states and runs *)

(** The animation-frame events that deliver the given buffers. *)
Definition frames (buffers : list (list Z)) : list Event :=
  map Animation_frame buffers.

(** Events that are neither a click on the filter button nor a timer
    firing. *)
Definition leaves_filter (e : Event) : bool :=
  match e with
  | Click_toggle | Timer_fire => false
  | _ => true
  end.

(** The page after CONNECT was clicked twice, one second apart, and
    three timers have fired: the session is ACTIVE and the second
    click's last timer is still pending. *)
Definition twice_connected : State :=
  after [Click_connect; Elapse 1000; Click_connect; Elapse 500; Timer_fire;
         Elapse 1000; Timer_fire; Elapse 1000; Timer_fire] tracking.

(** The mounted page after its first animation frame, which came
    before the Moon image and so returned before reading the canvas. *)
Definition stalled : State := after [Animation_frame []] mounted.

(** A session that waits has the timer that will move it on. *)
Definition moving_on (s : State) : Prop :=
  (ibmStatus s = CONNECTING ->
     exists due : nat, In (due, OnQueued) (timers s)) /\
  (ibmStatus s = QUEUED ->
     exists due : nat, In (due, OnAllocated) (timers s)).

(** The metadata on display is that of the image on display: the
    Moon's while no image has loaded, afterwards the record of the
    target the image was requested for. *)
Definition shows_own_metadata (s : State) : Prop :=
  match imageRef s with
  | None => ephemeris s = TARGETS MOON
  | Some img =>
      exists t : Target, src img = url (TARGETS t) /\ ephemeris s = TARGETS t
  end.



(** The page of [twice_connected] once the session has been ended by
    a click: DISCONNECTED, with the last callback of the second click
    still pending. *)
Definition stale : State := after [Click_connect] twice_connected.

(** Events of the session: a click on CONNECT, time passing, a timer
    firing. *)
Definition session_event (e : Event) : bool :=
  match e with
  | Click_connect | Elapse _ | Timer_fire => true
  | _ => false
  end.

(** * Properties *)

(** ** Stores into the clamped byte array *)

Section Uint8Clamped.

Lemma clamp_bounds (x : R) : 0 <= clamp x 0 255 <= 255.
Proof.
  unfold clamp, Rmax, Rmin.
  destruct (Rle_dec 255 x); destruct (Rle_dec 0 _); lra.
Qed.

Lemma clamp_inside (x : R) : 0 <= x <= 255 -> clamp x 0 255 = x.
Proof.
  intros H. unfold clamp, Rmax, Rmin.
  destruct (Rle_dec 255 x); destruct (Rle_dec 0 _); lra.
Qed.

(** [Math.min(255, x)] clamps above once more, [Math.max(0, x)]
    below: either way the store sees the same clamped value. *)
Lemma clamp_Math_min (x : R) : clamp (Js.Math_min 255 x) 0 255 = clamp x 0 255.
Proof.
  unfold clamp, Js.Math_min, Rmax, Rmin.
  repeat (destruct (Rle_dec _ _)); lra.
Qed.

Lemma clamp_Math_max (x : R) : clamp (Js.Math_max 0 x) 0 255 = clamp x 0 255.
Proof.
  unfold clamp, Js.Math_max, Rmax, Rmin.
  repeat (destruct (Rle_dec _ _)); lra.
Qed.

Lemma ToUint8Clamp_unfold (x : R) :
  Js.ToUint8Clamp x =
    let c := clamp x 0 255 in
    let f := Int_part c in
    if Rlt_dec c (IZR f + 0.5) then f
    else if Rlt_dec (IZR f + 0.5) c then (f + 1)%Z
    else if Z.even f then f else (f + 1)%Z.
Proof. reflexivity. Qed.

(** The store rounds the clamped value to the nearest integer, ties
    to even. *)
Lemma ToUint8Clamp_nearest (x : R) :
  nearest_ties_even (clamp x 0 255) (Js.ToUint8Clamp x).
Proof.
  rewrite ToUint8Clamp_unfold. cbv zeta.
  set (c := clamp x 0 255).
  destruct (base_Int_part c) as [Hlo Hhi].
  set (f := Int_part c) in *.
  unfold nearest_ties_even.
  destruct (Rlt_dec c (IZR f + 0.5)) as [Hlt | Hge].
  - split.
    + rewrite Rabs_pos_eq; lra.
    + rewrite Rabs_pos_eq by lra. intros E. lra.
  - destruct (Rlt_dec (IZR f + 0.5) c) as [Hgt | Hle].
    + rewrite plus_IZR. split.
      * rewrite Rabs_left1; lra.
      * rewrite Rabs_left1 by lra. intros E. lra.
    + assert (Hc : c = IZR f + 0.5) by lra.
      destruct (Z.even f) eqn:Ev.
      * split; [rewrite Rabs_pos_eq; lra | intros _; exact Ev].
      * rewrite plus_IZR. split; [rewrite Rabs_left1; lra | intros _].
        rewrite Z.even_add, Ev. reflexivity.
Qed.

(** A value within half a unit of a byte is stored as that byte. *)
Lemma ToUint8Clamp_near (z : Z) (x : R) :
  (0 <= z <= 255)%Z -> IZR z - 0.5 < x < IZR z + 0.5 ->
  Js.ToUint8Clamp x = z.
Proof.
  intros [Hz0 Hz255] Hx.
  apply IZR_le in Hz0, Hz255.
  rewrite ToUint8Clamp_unfold. cbv zeta.
  assert (Hc : IZR z - 0.5 < clamp x 0 255 < IZR z + 0.5).
  { unfold clamp, Rmax, Rmin.
    destruct (Rle_dec 255 x); destruct (Rle_dec 0 _); lra. }
  set (c := clamp x 0 255) in *.
  destruct (Rle_lt_dec (IZR z) c) as [Hle | Hlt].
  - assert (E : z = Int_part c) by (apply Int_part_spec; lra).
    rewrite <- E.
    destruct (Rlt_dec c (IZR z + 0.5)); [reflexivity | lra].
  - assert (E : (z - 1)%Z = Int_part c).
    { apply Int_part_spec. rewrite minus_IZR. lra. }
    rewrite <- E. rewrite minus_IZR.
    destruct (Rlt_dec c (IZR z - 1 + 0.5)); [lra |].
    destruct (Rlt_dec (IZR z - 1 + 0.5) c); [lia | lra].
Qed.

(** An integer is stored as its clamp to a byte. *)
Lemma ToUint8Clamp_IZR (z : Z) :
  Js.ToUint8Clamp (IZR z) = Z.max 0 (Z.min 255 z).
Proof.
  assert (Hb : (0 <= Z.max 0 (Z.min 255 z) <= 255)%Z) by lia.
  destruct (Z_lt_le_dec z 0) as [Hneg | Hpos].
  - replace (Z.max 0 (Z.min 255 z)) with 0%Z by lia.
    rewrite ToUint8Clamp_unfold. cbv zeta.
    assert (Hc : clamp (IZR z) 0 255 = 0).
    { apply IZR_lt in Hneg. unfold clamp, Rmax, Rmin.
      destruct (Rle_dec 255 _); destruct (Rle_dec 0 _); lra. }
    rewrite Hc.
    assert (E : 0%Z = Int_part 0) by (apply Int_part_spec; lra).
    rewrite <- E.
    destruct (Rlt_dec 0 (0 + 0.5)); [reflexivity | lra].
  - destruct (Z_lt_le_dec 255 z) as [Hbig | Hsmall].
    + replace (Z.max 0 (Z.min 255 z)) with 255%Z by lia.
      rewrite ToUint8Clamp_unfold. cbv zeta.
      assert (Hc : clamp (IZR z) 0 255 = 255).
      { apply IZR_lt in Hbig. unfold clamp, Rmax, Rmin.
        destruct (Rle_dec 255 _); destruct (Rle_dec 0 _); lra. }
      rewrite Hc.
      assert (E : 255%Z = Int_part 255) by (apply Int_part_spec; lra).
      rewrite <- E.
      destruct (Rlt_dec 255 (255 + 0.5)); [reflexivity | lra].
    + replace (Z.max 0 (Z.min 255 z)) with z by lia.
      apply ToUint8Clamp_near; [lia | lra].
Qed.

End Uint8Clamped.

(** ** The pixel loop *)

Section PixelLoop.

Variables (q : bool) (phase : R).

(** Pixel [p] of the buffer is shaded with the noise of loop index
    [i + 4 * p], and its alpha byte is kept. *)
Lemma pixelShader_pixel (p : nat) :
  forall (i : nat) (data : list Z) (r g b a : Z),
    nth_error data (4 * p) = Some r ->
    nth_error data (4 * p + 1) = Some g ->
    nth_error data (4 * p + 2) = Some b ->
    nth_error data (4 * p + 3) = Some a ->
    nth_error (pixelShader q phase i data) (4 * p)
      = Some (shadeRed q (noise (i + 4 * p) phase) r) /\
    nth_error (pixelShader q phase i data) (4 * p + 1)
      = Some (shadeGreen q (noise (i + 4 * p) phase) g) /\
    nth_error (pixelShader q phase i data) (4 * p + 2)
      = Some (shadeBlue q (noise (i + 4 * p) phase) b) /\
    nth_error (pixelShader q phase i data) (4 * p + 3) = Some a.
Proof.
  induction p as [| p IH]; intros i data r g b a Hr Hg Hb Ha.
  - destruct data as [| x0 [| x1 [| x2 [| x3 rest]]]]; try discriminate.
    cbn in Hr, Hg, Hb, Ha.
    injection Hr as <-. injection Hg as <-. injection Hb as <-. injection Ha as <-.
    replace (i + 4 * 0)%nat with i by lia.
    cbn. repeat split; reflexivity.
  - replace (4 * S p)%nat with (S (S (S (S (4 * p))))) in * by lia.
    destruct data as [| x0 [| x1 [| x2 [| x3 rest]]]]; try discriminate.
    cbn [nth_error Nat.add] in Hr, Hg, Hb, Ha.
    destruct (IH (i + 4)%nat rest r g b a Hr Hg Hb Ha) as (Er & Eg & Eb & Ea).
    replace (i + S (S (S (S (4 * p)))))%nat with (i + 4 + 4 * p)%nat by lia.
    cbn [pixelShader nth_error Nat.add].
    repeat split; assumption.
Qed.

Lemma pixelShader_length : forall (data : list Z) (i : nat),
  List.length (pixelShader q phase i data) = List.length data.
Proof.
  fix IH 1. intros data i.
  destruct data as [| x0 [| x1 [| x2 [| x3 rest]]]]; try reflexivity.
  cbn [pixelShader List.length]. rewrite (IH rest). reflexivity.
Qed.

End PixelLoop.

Lemma fill_length (n : nat) (px : list Z) :
  List.length (fill n px) = (n * List.length px)%nat.
Proof.
  induction n as [| n IH]; [reflexivity |].
  cbn [fill]. rewrite length_app, IH. reflexivity.
Qed.

(** The sample frame has the four bytes of each pixel of the canvas. *)
Lemma sample_frame_size :
  N.of_nat (List.length sample_frame) = (4 * 900 * 600)%N.
Proof.
  unfold sample_frame. rewrite length_app, fill_length.
  rewrite Nat2N.inj_add, Nat2N.inj_mul, N2Nat.id. reflexivity.
Qed.

(** ** Helper facts: rounding, the sine near zero, one frame *)

(** At most one integer is nearest with ties to even. *)
Lemma nearest_ties_even_unique (x : R) (z1 z2 : Z) :
  nearest_ties_even x z1 -> nearest_ties_even x z2 -> z1 = z2.
Proof.
  intros [B1 T1] [B2 T2].
  assert (H1 : -0.5 <= x - IZR z1 <= 0.5) by (revert B1; unfold Rabs; destruct (Rcase_abs _); lra).
  assert (H2 : -0.5 <= x - IZR z2 <= 0.5) by (revert B2; unfold Rabs; destruct (Rcase_abs _); lra).
  destruct (Z.lt_trichotomy z1 z2) as [Hlt | [Heq | Hgt]]; [| exact Heq |].
  - assert (Hs : (z1 + 1 <= z2)%Z) by lia.
    apply IZR_le in Hs. rewrite plus_IZR in Hs.
    assert (E1 : x - IZR z1 = 0.5) by lra.
    assert (E2 : x - IZR z2 = -0.5) by lra.
    assert (Ez : IZR z2 = IZR (z1 + 1)) by (rewrite plus_IZR; lra).
    apply eq_IZR in Ez. subst z2.
    assert (Ev1 : Z.even z1 = true).
    { apply T1. rewrite E1. apply Rabs_pos_eq. lra. }
    assert (Ev2 : Z.even (z1 + 1) = true).
    { apply T2. rewrite E2. rewrite Rabs_left1; lra. }
    rewrite Z.even_add, Ev1 in Ev2. discriminate.
  - assert (Hs : (z2 + 1 <= z1)%Z) by lia.
    apply IZR_le in Hs. rewrite plus_IZR in Hs.
    assert (E1 : x - IZR z1 = -0.5) by lra.
    assert (E2 : x - IZR z2 = 0.5) by lra.
    assert (Ez : IZR z1 = IZR (z2 + 1)) by (rewrite plus_IZR; lra).
    apply eq_IZR in Ez. subst z1.
    assert (Ev2 : Z.even z2 = true).
    { apply T2. rewrite E2. apply Rabs_pos_eq. lra. }
    assert (Ev1 : Z.even (z2 + 1) = true).
    { apply T1. rewrite E1. rewrite Rabs_left1; lra. }
    rewrite Z.even_add, Ev2 in Ev1. discriminate.
Qed.

(** The sine between its first two Taylor sums. *)
Lemma sin_near_zero (a : R) : 0 < a -> a <= 1 -> a - a ^ 3 / 6 <= sin a < a.
Proof.
  intros Hpos Hle. split.
  - assert (HP : a <= PI) by (pose proof PI2_1; lra).
    destruct (sin_bound a 0 (Rlt_le _ _ Hpos) HP) as [L _].
    unfold sin_approx, sin_term in L.
    cbn [sum_f_R0 Nat.mul Nat.add] in L. simpl in L. lra.
  - apply sin_lt_x. exact Hpos.
Qed.

(** What a frame leaves behind when it has a canvas and an image. *)
Lemma processFrame_draws (s : State) (data : list Z) (canvas : Canvas) (img : Image) :
  canvasRef s = Some canvas -> imageRef s = Some img ->
  written (processFrame data s)
    = pixelShader (quantumMode s) (phaseRef s + 0.15) 0 data /\
  phaseRef (processFrame data s) = phaseRef s + 0.15 /\
  quantumMode (processFrame data s) = quantumMode s.
Proof.
  intros Hc Hi. unfold processFrame. rewrite Hc, Hi.
  repeat split; reflexivity.
Qed.

(** ** Binary64: what a store takes *)

Lemma nan_decoded (x : float) : PrimFloat.is_nan x = true -> Prim2SF x = S754_nan.
Proof. intros H. unfold Prim2SF. rewrite H. reflexivity. Qed.

Lemma decoded_nan (x : float) : Prim2SF x = S754_nan -> PrimFloat.is_nan x = true.
Proof.
  unfold Prim2SF. destruct (PrimFloat.is_nan x); [reflexivity |].
  destruct (PrimFloat.is_zero x); [discriminate |].
  destruct (PrimFloat.is_infinity x); [discriminate |].
  destruct (Z.frexp x) as [r ex].
  destruct (shr_fexp _ _ _ _ _) as [shr e'].
  destruct (shr_m shr); discriminate.
Qed.

Lemma digits2_pos_size (m : positive) : digits2_pos m = Pos.size m.
Proof. induction m; cbn; congruence. Qed.

Lemma pow2_pos (k : Z) : (0 <= k)%Z -> 0 < IZR (2 ^ k).
Proof. intros H. apply IZR_lt. apply Z.pow_pos_nonneg; lia. Qed.

Lemma real_of_negative (m : positive) (e : Z) : Binary64.real_of true m e <= 0.
Proof.
  unfold Binary64.real_of, Binary64.signed. destruct (0 <=? e)%Z eqn:E.
  - apply Z.leb_le in E. apply IZR_le.
    assert (0 < 2 ^ e)%Z by (apply Z.pow_pos_nonneg; lia). nia.
  - apply Z.leb_gt in E. assert (Hp := pow2_pos (- e) ltac:(lia)).
    unfold Rdiv. assert (IZR (Z.neg m) <= 0) by (apply IZR_le; lia).
    assert (0 < / IZR (2 ^ (- e))) by (apply Rinv_0_lt_compat; exact Hp).
    nra.
Qed.

Lemma clamp_low (x : R) : x <= 0 -> clamp x 0 255 = 0.
Proof. intros H. unfold clamp, Rmax, Rmin. repeat destruct (Rle_dec _ _); lra. Qed.
Lemma clamp_high (x : R) : 255 <= x -> clamp x 0 255 = 255.
Proof. intros H. unfold clamp, Rmax, Rmin. repeat destruct (Rle_dec _ _); lra. Qed.

(** what the comparison with 255 tells *)
Lemma above_255 (x : float) : PrimFloat.ltb 255 x = true -> Binary64.clamped x = 255.
Proof.
  intros H. rewrite ltb_spec in H.
  change (Prim2SF 255) with (S754_finite false 8972014882652160 (-45)) in H.
  pose proof (Prim2SF_valid x) as V.
  unfold Binary64.clamped. unfold SFltb, SFcompare in H.
  destruct (Prim2SF x) as [s | s | | s m e].
  - destruct s; discriminate H.
  - destruct s; [discriminate H | reflexivity].
  - discriminate H.
  - destruct s; [discriminate H |].
    apply clamp_high.
    destruct (Z.compare_spec (-45) e) as [E | E | E]; try discriminate H.
    + subst e.
      assert (Hm : (8972014882652160 < Zpos m)%Z).
      { destruct (Pos.compare_cont Eq 8972014882652160 m) eqn:C; try discriminate H.
        change (Pos.compare 8972014882652160 m = Lt) in C.
        rewrite Pos.compare_lt_iff in C. lia. }
      unfold Binary64.real_of, Binary64.signed. cbn [Z.leb Z.compare].
      apply IZR_lt in Hm.
      change (- -45)%Z with 45%Z.
      assert (Hd : IZR (2 ^ 45) = 35184372088832) by (f_equal).
      rewrite Hd. lra.
    + cbn in V. apply andb_prop in V as [C _].
      unfold canonical_mantissa, fexp in C. apply Z.eqb_eq in C.
      rewrite digits2_pos_size in C.
      assert (Hs : Zpos (Pos.size m) = 53%Z).
      { unfold SpecFloat.emin, emax, prec in C. lia. }
      assert (Hm : (2 ^ 52 <= Zpos m)%Z).
      { pose proof (Pos.size_le m) as L.
        assert (Pos.size m = 53%positive) by lia. rewrite H0 in L.
        change (2 ^ 52)%Z with 4503599627370496%Z.
        change (2 ^ 53)%positive with 9007199254740992%positive in L. lia. }
      unfold Binary64.real_of, Binary64.signed. destruct (0 <=? e)%Z eqn:Ee.
      * apply Z.leb_le in Ee.
        assert (0 < 2 ^ e)%Z by (apply Z.pow_pos_nonneg; lia).
        apply (Rle_trans _ (IZR (2 ^ 52))); [change (2^52)%Z with 4503599627370496%Z; lra |].
        apply IZR_le. nia.
      * apply Z.leb_gt in Ee.
        assert (Hk : (2 ^ (- e) <= 2 ^ 44)%Z) by (apply Z.pow_le_mono_r; lia).
        assert (Hp := pow2_pos (- e) ltac:(lia)).
        apply IZR_le in Hk, Hm.
        change (2 ^ 44)%Z with 17592186044416%Z in Hk.
        change (2 ^ 52)%Z with 4503599627370496%Z in Hm.
        apply (Rmult_le_reg_r (IZR (2 ^ (- e)))); [exact Hp |].
        unfold Rdiv. rewrite Rmult_assoc, Rinv_l by lra. nra.
Qed.

Lemma below_0 (x : float) : PrimFloat.ltb x 0 = true -> Binary64.clamped x = 0.
Proof.
  intros H. rewrite ltb_spec in H.
  change (Prim2SF 0) with (S754_zero false) in H.
  unfold Binary64.clamped. unfold SFltb, SFcompare in H.
  destruct (Prim2SF x) as [s | s | | s m e].
  - discriminate H.
  - destruct s; [reflexivity | discriminate H].
  - discriminate H.
  - destruct s; [| discriminate H].
    apply clamp_low. apply real_of_negative.
Qed.

Lemma level_with_0 (x : float) :
  PrimFloat.is_nan x = false ->
  PrimFloat.ltb 0 x = false -> PrimFloat.ltb x 0 = false -> Binary64.clamped x = 0.
Proof.
  intros Hn H1 H2. rewrite ltb_spec in H1, H2.
  change (Prim2SF 0) with (S754_zero false) in H1, H2.
  unfold Binary64.clamped. unfold SFltb, SFcompare in H1, H2.
  destruct (Prim2SF x) as [s | s | | s m e] eqn:E.
  - reflexivity.
  - destruct s; discriminate.
  - apply decoded_nan in E. congruence.
  - destruct s; discriminate.
Qed.

Lemma clamped_nan (x : float) : PrimFloat.is_nan x = true -> Binary64.clamped x = 0.
Proof. intros H. unfold Binary64.clamped. rewrite (nan_decoded x H). reflexivity. Qed.

Lemma integer_value_clamped (x : float) (n : Z) :
  Binary64.integer_value x = Some n -> Binary64.clamped x = clamp (IZR n) 0 255.
Proof.
  unfold Binary64.integer_value, Binary64.clamped.
  destruct (Prim2SF x) as [s | s | | s m e]; try discriminate.
  - intros H. injection H as <-. symmetry. apply clamp_low. lra.
  - unfold Binary64.real_of. destruct (0 <=? e)%Z eqn:Ee.
    + intros H. injection H as <-. reflexivity.
    + destruct (Z.pos m mod 2 ^ (- e) =? 0)%Z eqn:Em; [| discriminate].
      intros H. injection H as <-. f_equal.
      apply Z.leb_gt in Ee. apply Z.eqb_eq in Em.
      assert (Hp := pow2_pos (- e) ltac:(lia)).
      set (d := (2 ^ (- e))%Z) in *.
      assert (Hd : (0 < d)%Z) by (apply lt_IZR; exact Hp).
      assert (Hs : (Binary64.signed s m mod d = 0)%Z).
      { unfold Binary64.signed. destruct s; [| exact Em].
        change (Z.neg m) with (- Z.pos m)%Z.
        apply Z.mod_opp_l_z; [lia | exact Em]. }
      assert (Hq : Binary64.signed s m = (d * (Binary64.signed s m / d))%Z).
      { apply Z.div_exact; [lia | exact Hs]. }
      rewrite Hq at 1. rewrite mult_IZR. field. lra.
Qed.

Lemma clamped_255 : Binary64.clamped 255 = 255.
Proof.
  rewrite (integer_value_clamped 255 255) by (vm_compute; reflexivity).
  apply clamp_high. lra.
Qed.

Lemma clamped_0 : Binary64.clamped 0 = 0.
Proof.
  rewrite (integer_value_clamped 0 0) by (vm_compute; reflexivity).
  apply clamp_low. lra.
Qed.

(** [Math.min(255, x)] and [Math.max(0, x)] do not change what the store takes. *)
Lemma clamped_Math_min (x : float) : Binary64.clamped (Binary64.Math_min 255 x) = Binary64.clamped x.
Proof.
  unfold Binary64.Math_min. change (PrimFloat.is_nan 255) with false. cbn [orb].
  destruct (PrimFloat.is_nan x) eqn:Hn.
  - rewrite (clamped_nan x Hn). apply clamped_nan. reflexivity.
  - destruct (PrimFloat.ltb 255 x) eqn:H1.
    + rewrite (above_255 x H1). apply clamped_255.
    + destruct (PrimFloat.ltb x 255); [reflexivity |].
      change (PrimFloat.get_sign 255) with false. reflexivity.
Qed.

Lemma clamped_Math_max (x : float) : Binary64.clamped (Binary64.Math_max 0 x) = Binary64.clamped x.
Proof.
  unfold Binary64.Math_max. change (PrimFloat.is_nan 0) with false. cbn [orb].
  destruct (PrimFloat.is_nan x) eqn:Hn.
  - rewrite (clamped_nan x Hn). apply clamped_nan. reflexivity.
  - destruct (PrimFloat.ltb 0 x) eqn:H1; [reflexivity |].
    destruct (PrimFloat.ltb x 0) eqn:H2.
    + rewrite (below_0 x H2). apply clamped_0.
    + change (PrimFloat.get_sign 0) with false.
      rewrite (level_with_0 x Hn H1 H2). apply clamped_0.
Qed.

Lemma byte_plus_ten (r : Z) :
  (0 <= r <= 255)%Z -> Binary64.integer_value (PrimFloat.add (Binary64.num r) 10) = Some (r + 10)%Z.
Proof.
  intros Hr.
  assert (Hall : Binary64.bytes_plus_ten = true) by (vm_compute; reflexivity).
  unfold Binary64.bytes_plus_ten in Hall. rewrite forallb_forall in Hall.
  specialize (Hall (Z.to_nat r)).
  rewrite Z2Nat.id in Hall by lia.
  assert (Hin : In (Z.to_nat r) (seq 0 256)) by (apply in_seq; lia).
  specialize (Hall Hin).
  destruct (Binary64.integer_value _) as [n |]; [| discriminate Hall].
  apply Z.eqb_eq in Hall. congruence.
Qed.

(** The store rounds the clamped value of a Number to the nearest
    integer, ties to even. *)
Lemma Binary64_clamped_bounds (x : float) : 0 <= Binary64.clamped x <= 255.
Proof.
  unfold Binary64.clamped.
  destruct (Prim2SF x) as [s | s | | s m e]; try lra.
  - destruct s; lra.
  - apply clamp_bounds.
Qed.

Lemma ToUint8Clamp_unfold_clamp (x : R) :
  Js.ToUint8Clamp (clamp x 0 255) = Js.ToUint8Clamp x.
Proof.
  rewrite !ToUint8Clamp_unfold. cbv zeta.
  rewrite (clamp_inside (clamp x 0 255)) by apply clamp_bounds. reflexivity.
Qed.

Lemma store_nearest (x : float) :
  nearest_ties_even (Binary64.clamped x) (Binary64.ToUint8Clamp x).
Proof.
  unfold Binary64.ToUint8Clamp.
  pose proof (ToUint8Clamp_nearest (Binary64.clamped x)) as H.
  rewrite (clamp_inside (Binary64.clamped x)) in H
    by apply Binary64_clamped_bounds.
  exact H.
Qed.

(** Pixel [p] of the buffer is shaded with the noise of loop index
    [i + 4 * p], and its alpha byte is kept. *)
Lemma pixelShader64_pixel (Math_sin : float -> float) (q : bool) (phase : float)
  (p : nat) :
  forall (i : nat) (data : list Z) (r g b a : Z),
    nth_error data (4 * p) = Some r ->
    nth_error data (4 * p + 1) = Some g ->
    nth_error data (4 * p + 2) = Some b ->
    nth_error data (4 * p + 3) = Some a ->
    nth_error (Binary64.pixelShader Math_sin q phase i data) (4 * p)
      = Some (Binary64.shadeRed q (Binary64.noise Math_sin (i + 4 * p) phase) r) /\
    nth_error (Binary64.pixelShader Math_sin q phase i data) (4 * p + 1)
      = Some (Binary64.shadeGreen q (Binary64.noise Math_sin (i + 4 * p) phase) g) /\
    nth_error (Binary64.pixelShader Math_sin q phase i data) (4 * p + 2)
      = Some (Binary64.shadeBlue q (Binary64.noise Math_sin (i + 4 * p) phase) b) /\
    nth_error (Binary64.pixelShader Math_sin q phase i data) (4 * p + 3) = Some a.
Proof.
  induction p as [| p IH]; intros i data r g b a Hr Hg Hb Ha.
  - destruct data as [| x0 [| x1 [| x2 [| x3 rest]]]]; try discriminate.
    cbn in Hr, Hg, Hb, Ha.
    injection Hr as <-. injection Hg as <-. injection Hb as <-. injection Ha as <-.
    replace (i + 4 * 0)%nat with i by lia.
    cbn [Binary64.pixelShader nth_error Nat.mul Nat.add].
    repeat split; reflexivity.
  - replace (4 * S p)%nat with (S (S (S (S (4 * p))))) in * by lia.
    destruct data as [| x0 [| x1 [| x2 [| x3 rest]]]]; try discriminate.
    cbn [nth_error Nat.add] in Hr, Hg, Hb, Ha.
    destruct (IH (i + 4)%nat rest r g b a Hr Hg Hb Ha) as (Er & Eg & Eb & Ea).
    replace (i + S (S (S (S (4 * p)))))%nat with (i + 4 + 4 * p)%nat by lia.
    cbn [Binary64.pixelShader nth_error Nat.add].
    repeat split; assumption.
Qed.

(** Two roundings the real numbers do not have: three increments of
    the accumulator fall short of 0.45, and the product of a loop
    index and 0.01 is not the index over a hundred. *)
Lemma advance_three_times :
  Binary64.advance (Binary64.advance (Binary64.advance 0))
    = 0.44999999999999996%float.
Proof. reflexivity. Qed.

Lemma index_times_hundredth :
  PrimFloat.mul (Binary64.num 293144) 0.01%float = 2931.4400000000001%float.
Proof. reflexivity. Qed.

(** ** Frame processor: the channels written (C1, C2, C3) *)

(** C1, as the specification words it, fails on the first filtered
    frame over a black pixel: the accumulator moves from 0 to 0.15,
    the noise is [20 * sin 0.15], a little under 3, and the green byte
    stored is 37, not the real number [40 - 20 * sin 0.15]. *)
Lemma C1_counterexample :
  let s' := processFrame sample_frame filtering in
  let N := noise 0 (phaseRef s') in
  nth_error sample_frame 1 = Some 0%Z /\
  nth_error (written s') 1 = Some 37%Z /\
  IZR 37 <> clamp (IZR 0 + 40 - N) 0 255.
Proof.
  cbv zeta.
  assert (Hph : phaseRef (processFrame sample_frame filtering) = 0 + 0.15)
    by reflexivity.
  rewrite Hph.
  assert (Harg : INR 0 * 0.01 + (0 + 0.15) = 0.15) by (simpl; lra).
  assert (Hsin : 0.15 - 0.15 ^ 3 / 6 <= sin 0.15 < 0.15)
    by (apply sin_near_zero; lra).
  split; [reflexivity |]. split.
  - change (nth_error (written (processFrame sample_frame filtering)) 1)
      with (Some (shadeGreen true (noise 0 (0 + 0.15)) 0)).
    f_equal. unfold shadeGreen, noise, Js.Math_min. rewrite Harg.
    apply ToUint8Clamp_near; [lia |].
    unfold Rmin. destruct (Rle_dec 255 _); lra.
  - unfold noise. rewrite Harg. rewrite clamp_inside by lra. lra.
Qed.

(** C1, amended.  With the filter on, and in the binary64 arithmetic
    of the source, the red byte written for pixel [p] is exactly
    [clamp(r + 10, 0, 255)]; the green and blue bytes are
    [clamp(g + 40 - N, 0, 255)] and [clamp(b + 50 - N, 0, 255)] rounded
    to the nearest integer, ties to even, where [g + 40 - N] and
    [b + 50 - N] are the Numbers the loop computes (a NaN is stored as
    0) and [N] is the noise the loop computes for the pixel, whatever
    the engine's sine. *)
Theorem C1_filter_on_channels
  (Math_sin : float -> float) (phaseRef : float) (data : list Z)
  (p : nat) (r g b a : Z) :
  nth_error data (4 * p) = Some r ->
  nth_error data (4 * p + 1) = Some g ->
  nth_error data (4 * p + 2) = Some b ->
  nth_error data (4 * p + 3) = Some a ->
  (0 <= r <= 255)%Z ->
  let phase := fst (Binary64.frame Math_sin true phaseRef data) in
  let out := snd (Binary64.frame Math_sin true phaseRef data) in
  let N := Binary64.noise Math_sin (4 * p) phase in
  exists r' g' b' : Z,
    nth_error out (4 * p) = Some r' /\
    nth_error out (4 * p + 1) = Some g' /\
    nth_error out (4 * p + 2) = Some b' /\
    IZR r' = clamp (IZR r + 10) 0 255 /\
    nearest_ties_even
      (Binary64.clamped (PrimFloat.sub (PrimFloat.add (Binary64.num g) 40) N)) g' /\
    nearest_ties_even
      (Binary64.clamped (PrimFloat.sub (PrimFloat.add (Binary64.num b) 50) N)) b'.
Proof.
  intros Hr Hg Hb Ha Br phase out N.
  destruct (pixelShader64_pixel Math_sin true (Binary64.advance phaseRef) p 0 data
              r g b a Hr Hg Hb Ha) as (Er & Eg & Eb & _).
  cbn [Nat.add] in Er, Eg, Eb.
  eexists _, _, _.
  split; [exact Er |]. split; [exact Eg |]. split; [exact Eb |].
  unfold Binary64.shadeRed, Binary64.shadeGreen, Binary64.shadeBlue.
  split; [| split].
  - unfold Binary64.ToUint8Clamp. rewrite clamped_Math_min.
    rewrite (integer_value_clamped _ _ (byte_plus_ten r Br)).
    rewrite ToUint8Clamp_unfold_clamp, ToUint8Clamp_IZR.
    destruct Br as [Br0 Br1].
    destruct (Z_le_gt_dec (r + 10) 255) as [Hle | Hgt].
    + rewrite Z.min_r, Z.max_r by lia. rewrite plus_IZR.
      symmetry. apply clamp_inside.
      apply IZR_le in Br0, Hle. rewrite plus_IZR in Hle. lra.
    + apply Z.gt_lt in Hgt. rewrite Z.min_l, Z.max_r by lia.
      symmetry. apply clamp_high.
      apply IZR_lt in Hgt. rewrite plus_IZR in Hgt. lra.
  - rewrite <- clamped_Math_min. apply store_nearest.
  - rewrite <- clamped_Math_min. apply store_nearest.
Qed.

Lemma C1_filter_on_channels_witness :
  let phase := fst (Binary64.frame Binary64.sin_series true 0 sample_frame) in
  let out := snd (Binary64.frame Binary64.sin_series true 0 sample_frame) in
  let N := Binary64.noise Binary64.sin_series 4 phase in
  exists r' g' b' : Z,
    nth_error out 4 = Some r' /\
    nth_error out 5 = Some g' /\
    nth_error out 6 = Some b' /\
    IZR r' = clamp (IZR 100 + 10) 0 255 /\
    nearest_ties_even
      (Binary64.clamped (PrimFloat.sub (PrimFloat.add (Binary64.num 100) 40) N)) g' /\
    nearest_ties_even
      (Binary64.clamped (PrimFloat.sub (PrimFloat.add (Binary64.num 100) 50) N)) b'.
Proof.
  apply (C1_filter_on_channels Binary64.sin_series 0%float sample_frame
           1 100 100 100 255 eq_refl eq_refl eq_refl eq_refl).
  lia.
Defined.

(** C2, as the specification words it, fails on the first unfiltered
    frame over a black pixel: the noise is [20 * sin 0.15], strictly
    between 2.5 and 3, and the byte stored in each channel is 3. *)
Lemma C2_counterexample :
  let s' := processFrame sample_frame tracking in
  let N := noise 0 (phaseRef s') in
  nth_error sample_frame 0 = Some 0%Z /\
  nth_error (written s') 0 = Some 3%Z /\
  IZR 3 <> clamp (IZR 0 + N) 0 255.
Proof.
  cbv zeta.
  assert (Hph : phaseRef (processFrame sample_frame tracking) = 0 + 0.15)
    by reflexivity.
  rewrite Hph.
  assert (Harg : INR 0 * 0.01 + (0 + 0.15) = 0.15) by (simpl; lra).
  assert (Hsin : 0.15 - 0.15 ^ 3 / 6 <= sin 0.15 < 0.15)
    by (apply sin_near_zero; lra).
  split; [reflexivity |]. split.
  - change (nth_error (written (processFrame sample_frame tracking)) 0)
      with (Some (shadeRed false (noise 0 (0 + 0.15)) 0)).
    f_equal. unfold shadeRed, noise, Js.Math_max. rewrite Harg.
    apply ToUint8Clamp_near; [lia |].
    unfold Rmax. destruct (Rle_dec 0 _); lra.
  - unfold noise. rewrite Harg. rewrite clamp_inside by lra. lra.
Qed.

(** C2, amended.  With the filter off, and in the binary64 arithmetic
    of the source, each of the three bytes written for pixel [p] is
    [clamp(channel + N, 0, 255)] rounded to the nearest integer, ties
    to even, where [channel + N] is the Number the loop computes (a
    NaN is stored as 0) and [N] is the noise the loop computes for the
    pixel, whatever the engine's sine. *)
Theorem C2_filter_off_channels
  (Math_sin : float -> float) (phaseRef : float) (data : list Z)
  (p : nat) (r g b a : Z) :
  nth_error data (4 * p) = Some r ->
  nth_error data (4 * p + 1) = Some g ->
  nth_error data (4 * p + 2) = Some b ->
  nth_error data (4 * p + 3) = Some a ->
  let phase := fst (Binary64.frame Math_sin false phaseRef data) in
  let out := snd (Binary64.frame Math_sin false phaseRef data) in
  let N := Binary64.noise Math_sin (4 * p) phase in
  exists r' g' b' : Z,
    nth_error out (4 * p) = Some r' /\
    nth_error out (4 * p + 1) = Some g' /\
    nth_error out (4 * p + 2) = Some b' /\
    nearest_ties_even (Binary64.clamped (PrimFloat.add (Binary64.num r) N)) r' /\
    nearest_ties_even (Binary64.clamped (PrimFloat.add (Binary64.num g) N)) g' /\
    nearest_ties_even (Binary64.clamped (PrimFloat.add (Binary64.num b) N)) b'.
Proof.
  intros Hr Hg Hb Ha phase out N.
  destruct (pixelShader64_pixel Math_sin false (Binary64.advance phaseRef) p 0 data
              r g b a Hr Hg Hb Ha) as (Er & Eg & Eb & _).
  cbn [Nat.add] in Er, Eg, Eb.
  eexists _, _, _.
  split; [exact Er |]. split; [exact Eg |]. split; [exact Eb |].
  unfold Binary64.shadeRed, Binary64.shadeGreen, Binary64.shadeBlue.
  repeat split; try (rewrite <- clamped_Math_max; apply store_nearest).
Qed.

Lemma C2_filter_off_channels_witness :
  let phase := fst (Binary64.frame Binary64.sin_series false 0 sample_frame) in
  let out := snd (Binary64.frame Binary64.sin_series false 0 sample_frame) in
  let N := Binary64.noise Binary64.sin_series 4 phase in
  exists r' g' b' : Z,
    nth_error out 4 = Some r' /\
    nth_error out 5 = Some g' /\
    nth_error out 6 = Some b' /\
    nearest_ties_even (Binary64.clamped (PrimFloat.add (Binary64.num 100) N)) r' /\
    nearest_ties_even (Binary64.clamped (PrimFloat.add (Binary64.num 100) N)) g' /\
    nearest_ties_even (Binary64.clamped (PrimFloat.add (Binary64.num 100) N)) b'.
Proof.
  exact (C2_filter_off_channels Binary64.sin_series 0%float sample_frame
           1 100 100 100 255 eq_refl eq_refl eq_refl eq_refl).
Defined.

(** C3, as the specification words it, fails on the second pixel of
    the first unfiltered frame.  The loop variable of pixel 1 is 4, so
    the noise is [20 * sin 0.19] and the grey level 100 is stored as
    104; the noise of pixel index 1, [20 * sin 0.16], would store
    103. *)
Lemma C3_counterexample :
  let s' := processFrame sample_frame tracking in
  nth_error sample_frame 4 = Some 100%Z /\
  nth_error (written s') 4 = Some 104%Z /\
  nth_error (written s') 4
    <> Some (shadeRed (quantumMode tracking)
               (noise_by_pixel_index 1 (phaseRef s')) 100).
Proof.
  cbv zeta.
  assert (Hph : phaseRef (processFrame sample_frame tracking) = 0 + 0.15)
    by reflexivity.
  rewrite Hph.
  assert (Hclaimed :
    shadeRed (quantumMode tracking) (noise_by_pixel_index 1 (0 + 0.15)) 100
      = 103%Z);
    [| rewrite Hclaimed; split; [reflexivity |];
       assert (Hcode : nth_error (written (processFrame sample_frame tracking)) 4
                         = Some 104%Z);
       [| rewrite Hcode; split; [reflexivity | discriminate]]].
  - change (quantumMode tracking) with false.
    unfold shadeRed, noise_by_pixel_index, Js.Math_max.
    assert (Harg : INR 1 * 0.01 + (0 + 0.15) = 0.16) by (simpl; lra).
    assert (Hsin : 0.16 - 0.16 ^ 3 / 6 <= sin 0.16 < 0.16)
      by (apply sin_near_zero; lra).
    rewrite Harg.
    apply ToUint8Clamp_near; [lia |].
    unfold Rmax. destruct (Rle_dec 0 _); lra.
  - change (nth_error (written (processFrame sample_frame tracking)) 4)
      with (Some (shadeRed false (noise 4 (0 + 0.15)) 100)).
    f_equal. unfold shadeRed, noise, Js.Math_max.
    assert (Harg : INR 4 * 0.01 + (0 + 0.15) = 0.19) by (simpl; lra).
    assert (Hsin : 0.19 - 0.19 ^ 3 / 6 <= sin 0.19 < 0.19)
      by (apply sin_near_zero; lra).
    rewrite Harg.
    apply ToUint8Clamp_near; [lia |].
    unfold Rmax. destruct (Rle_dec 0 _); lra.
Qed.

(** C3, amended.  A frame first advances the phase accumulator by
    0.15, in binary64; the bytes it writes for pixel [p] are those of
    the loop body run with the noise
    [Math.sin(4 * p * 0.01 + phase) * 20], computed in binary64 with
    the engine's sine, [4 * p] being the pixel's offset in the RGBA
    buffer and [phase] the advanced accumulator. *)
Theorem C3_noise_by_buffer_offset
  (Math_sin : float -> float) (quantumMode : bool) (phaseRef : float)
  (data : list Z) (p : nat) (r g b a : Z) :
  nth_error data (4 * p) = Some r ->
  nth_error data (4 * p + 1) = Some g ->
  nth_error data (4 * p + 2) = Some b ->
  nth_error data (4 * p + 3) = Some a ->
  let phase := fst (Binary64.frame Math_sin quantumMode phaseRef data) in
  let out := snd (Binary64.frame Math_sin quantumMode phaseRef data) in
  let N :=
    PrimFloat.mul
      (Math_sin
         (PrimFloat.add
            (PrimFloat.mul (Binary64.num (Z.of_nat (4 * p))) 0.01%float) phase))
      20 in
  phase = PrimFloat.add phaseRef 0.15%float /\
  nth_error out (4 * p) = Some (Binary64.shadeRed quantumMode N r) /\
  nth_error out (4 * p + 1) = Some (Binary64.shadeGreen quantumMode N g) /\
  nth_error out (4 * p + 2) = Some (Binary64.shadeBlue quantumMode N b) /\
  nth_error out (4 * p + 3) = Some a.
Proof.
  intros Hr Hg Hb Ha phase out N.
  destruct (pixelShader64_pixel Math_sin quantumMode (Binary64.advance phaseRef)
              p 0 data r g b a Hr Hg Hb Ha) as (Er & Eg & Eb & Ea).
  cbn [Nat.add] in Er, Eg, Eb.
  split; [reflexivity |].
  repeat split; assumption.
Qed.

Lemma C3_noise_by_buffer_offset_witness :
  let phase := fst (Binary64.frame Binary64.sin_series false 0 sample_frame) in
  let out := snd (Binary64.frame Binary64.sin_series false 0 sample_frame) in
  let N :=
    PrimFloat.mul
      (Binary64.sin_series
         (PrimFloat.add (PrimFloat.mul (Binary64.num 4) 0.01%float) phase))
      20 in
  phase = PrimFloat.add 0 0.15%float /\
  nth_error out 4 = Some (Binary64.shadeRed false N 100) /\
  nth_error out 5 = Some (Binary64.shadeGreen false N 100) /\
  nth_error out 6 = Some (Binary64.shadeBlue false N 100) /\
  nth_error out 7 = Some 255%Z.
Proof.
  exact (C3_noise_by_buffer_offset Binary64.sin_series false 0%float sample_frame
           1 100 100 100 255 eq_refl eq_refl eq_refl eq_refl).
Defined.

(** ** Log sink (C4) *)

Section LogSink.

Lemma logUpdater_cons (e : LogEntry) (prev : list LogEntry) :
  logUpdater e prev = e :: firstn 9 prev.
Proof. reflexivity. Qed.

Lemma logUpdater_length (e : LogEntry) (prev : list LogEntry) :
  (List.length (logUpdater e prev) <= 10)%nat.
Proof. unfold logUpdater, Js.slice0. apply firstn_le_length. Qed.

(** Appending after a truncation is appending to the whole history. *)
Lemma logUpdater_firstn (e : LogEntry) (l : list LogEntry) :
  logUpdater e (firstn 10 l) = logUpdater e l.
Proof.
  rewrite !logUpdater_cons. f_equal.
  rewrite firstn_firstn. reflexivity.
Qed.

Lemma appendAll_history (entries : list LogEntry) :
  forall prev : list LogEntry,
    appendAll entries (firstn 10 prev) = firstn 10 (rev entries ++ prev).
Proof.
  induction entries as [| e entries IH]; intros prev.
  - reflexivity.
  - cbn [appendAll fold_left rev].
    rewrite logUpdater_firstn.
    change (logUpdater e prev) with (firstn 10 (e :: prev)).
    fold (appendAll entries (firstn 10 (e :: prev))).
    rewrite IH. rewrite <- app_assoc. reflexivity.
Qed.

Lemma addLog_logs (msg : string) (s : State) :
  logs (addLog msg s) = logUpdater (Stamped (clock s) msg) (logs s).
Proof. reflexivity. Qed.

End LogSink.

(** ** Moves of the page: what each one touches *)

Ltac open_step H :=
  cbn [step] in H;
  repeat match type of H with
    | context [match ?x with _ => _ end] => destruct x eqn:?; try discriminate H
    end;
  injection H as <-.

Ltac open_handlers :=
  unfold connectToIBM, runCallback, toggleQuantumMode, setQuantumMode,
    selectTarget, onload, processFrame, imageLoaderEffect, setTimeout,
    addLog, frameLoopEffect;
  repeat match goal with
    | |- context [match ?x with _ => _ end] => destruct x eqn:?
    end;
  cbn [target quantumMode ibmStatus logs ephemeris canvasRef requestRef
       phaseRef imageRef clock timers loading
       set_target set_quantumMode set_ibmStatus set_logs set_ephemeris
       set_canvasRef set_requestRef set_phaseRef set_imageRef set_clock
       set_timers set_loading].

(** No move of the page lets the log grow past ten lines. *)
Lemma step_logs_capped (e : Event) (s s' : State) :
  step e s = Some s' ->
  (List.length (logs s) <= 10)%nat -> (List.length (logs s') <= 10)%nat.
Proof.
  intros H Hcap. destruct e; open_step H; open_handlers;
    solve [assumption | apply logUpdater_length].
Qed.

Lemma run_logs_capped (es : list Event) :
  forall s s' : State,
    run es s = Some s' ->
    (List.length (logs s) <= 10)%nat -> (List.length (logs s') <= 10)%nat.
Proof.
  induction es as [| e es IH]; intros s s' H Hcap; cbn [run] in H.
  - injection H as <-. exact Hcap.
  - destruct (step e s) as [s1 |] eqn:E; [| discriminate H].
    apply (IH s1 s' H). exact (step_logs_capped e s s1 E Hcap).
Qed.

(** Only the filter button switches the filter off. *)
Lemma step_keeps_filter_on (e : Event) (s s' : State) :
  step e s = Some s' -> quantumMode s = true -> quantumMode s' = false ->
  e = Click_toggle.
Proof.
  intros H Hon Hoff. destruct e; try reflexivity; exfalso;
    open_step H; revert Hoff; open_handlers; congruence.
Qed.

(** C4.  The log never holds more than 10 entries: not after any run
    of appends to the initial log, which leaves the ten newest lines,
    newest first; not after any single append to any log; not in any
    state the page reaches.  An append puts the new entry at the front,
    and on a full log it is the last, oldest entry that goes. *)
Theorem C4_log_capped_newest_first :
  (forall entries : list LogEntry,
     (List.length (appendAll entries initialLogs) <= 10)%nat /\
     appendAll entries initialLogs = firstn 10 (rev entries ++ initialLogs)) /\
  (forall (e : LogEntry) (prev : list LogEntry),
     (List.length (logUpdater e prev) <= 10)%nat /\
     logUpdater e prev = e :: firstn 9 prev) /\
  (forall (e : LogEntry) (prev : list LogEntry),
     (List.length prev < 10)%nat -> logUpdater e prev = e :: prev) /\
  (forall (e oldest : LogEntry) (kept : list LogEntry),
     List.length kept = 9%nat -> logUpdater e (kept ++ [oldest]) = e :: kept) /\
  (forall (msg : string) (s : State),
     logs (addLog msg s) = logUpdater (Stamped (clock s) msg) (logs s)) /\
  (forall (es : list Event) (s' : State),
     run es mounted = Some s' -> (List.length (logs s') <= 10)%nat).
Proof.
  assert (Hall : forall entries : list LogEntry,
             appendAll entries initialLogs
               = firstn 10 (rev entries ++ initialLogs)).
  { intros entries. apply (appendAll_history entries initialLogs). }
  split; [| split; [| split; [| split; [| split]]]].
  - intros entries. split; [| apply Hall].
    rewrite Hall. apply firstn_le_length.
  - intros e prev. split; [apply logUpdater_length | apply logUpdater_cons].
  - intros e prev Hlen. rewrite logUpdater_cons. f_equal.
    apply firstn_all2. lia.
  - intros e oldest kept Hlen. rewrite logUpdater_cons. f_equal.
    rewrite firstn_app, <- Hlen, firstn_all.
    replace (List.length kept - List.length kept)%nat with 0%nat by lia.
    cbn [firstn]. apply app_nil_r.
  - intros msg s. apply addLog_logs.
  - intros es s' H. apply (run_logs_capped es mounted s' H).
    exact (logUpdater_length _ initialLogs).
Qed.

Lemma C4_log_capped_newest_first_witness :
  logUpdater (Stamped 10 "j") [oldest_line]
    = [Stamped 10 "j"; oldest_line] /\
  logUpdater (Stamped 10 "j") (nine_lines ++ [oldest_line])
    = Stamped 10 "j" :: nine_lines /\
  (List.length (logs connected) <= 10)%nat.
Proof.
  destruct C4_log_capped_newest_first as (_ & _ & Hroom & Hfull & _ & Hrun).
  split; [| split].
  - apply (Hroom (Stamped 10 "j") [oldest_line]). cbn. lia.
  - apply (Hfull (Stamped 10 "j") oldest_line nine_lines). reflexivity.
  - apply (Hrun [Image_load MOON 600 600; Click_connect; Elapse 1500;
                 Timer_fire; Elapse 2000; Timer_fire]).
    vm_compute. reflexivity.
Defined.

(** ** Session simulator (C5, C6, C10) *)

Section OneTimer.

Variables (s : State) (due : nat) (cb : Callback).
Hypothesis one_timer : timers s = [(due, cb)].

Lemma elapse_up_to_due (ms : nat) :
  (clock s + ms <= due)%nat ->
  step (Elapse ms) s = Some (set_clock (clock s + ms) s).
Proof.
  intros H. cbn [step]. unfold may_elapse. rewrite one_timer.
  cbn [forallb fst]. apply Nat.leb_le in H. rewrite H. reflexivity.
Qed.

Lemma elapse_past_due (ms : nat) :
  (due < clock s + ms)%nat -> step (Elapse ms) s = None.
Proof.
  intros H. cbn [step]. unfold may_elapse. rewrite one_timer.
  cbn [forallb fst]. apply Nat.leb_gt in H. rewrite H. reflexivity.
Qed.

Lemma fire_when_due :
  (due <= clock s)%nat ->
  step Timer_fire s = Some (runCallback cb (set_timers [] s)).
Proof.
  intros H. cbn [step]. rewrite one_timer. cbn [next_due].
  apply Nat.leb_le in H. rewrite H. reflexivity.
Qed.

Lemma fire_not_yet :
  (clock s < due)%nat -> step Timer_fire s = None.
Proof.
  intros H. cbn [step]. rewrite one_timer. cbn [next_due].
  apply Nat.leb_gt in H. rewrite H. reflexivity.
Qed.

End OneTimer.

(** C5, as the specification words it, fails on a page the user can
    reach: CONNECT clicked twice a second apart, the session ended once
    it is ACTIVE, which leaves it DISCONNECTED with the last callback
    of the second click still pending.  A click there sets CONNECTING,
    but one second later that callback sets ACTIVE; QUEUED comes half
    a second after that, and ACTIVE again two seconds later. *)
Lemma C5_counterexample :
  run [Image_load MOON 600 600; Click_connect; Elapse 1000; Click_connect;
       Elapse 500; Timer_fire; Elapse 1000; Timer_fire; Elapse 1000;
       Timer_fire; Click_connect] mounted = Some stale /\
  ibmStatus stale = DISCONNECTED /\
  exists s1 s2 s3 s4 : State,
    step Click_connect stale = Some s1 /\ ibmStatus s1 = CONNECTING /\
    run [Elapse 1000; Timer_fire] s1 = Some s2 /\ ibmStatus s2 = ACTIVE /\
    run [Elapse 500; Timer_fire] s2 = Some s3 /\ ibmStatus s3 = QUEUED /\
    run [Elapse 2000; Timer_fire] s3 = Some s4 /\ ibmStatus s4 = ACTIVE.
Proof.
  split; [vm_compute; reflexivity |].
  split; [vm_compute; reflexivity |].
  exists (after [Click_connect] stale),
         (after [Click_connect; Elapse 1000; Timer_fire] stale),
         (after [Click_connect; Elapse 1000; Timer_fire; Elapse 500; Timer_fire]
            stale),
         (after [Click_connect; Elapse 1000; Timer_fire; Elapse 500; Timer_fire;
                 Elapse 2000; Timer_fire] stale).
  split; [vm_compute; reflexivity |].
  split; [vm_compute; reflexivity |].
  split; [vm_compute; reflexivity |].
  split; [vm_compute; reflexivity |].
  split; [vm_compute; reflexivity |].
  split; [vm_compute; reflexivity |].
  split; [vm_compute; reflexivity |].
  vm_compute; reflexivity.
Qed.

(** C5, amended.  A CONNECT click on a DISCONNECTED session sets
    CONNECTING at once, without moving the clock, and schedules the
    first callback 1500 ms ahead; that callback sets QUEUED and
    schedules the second one 2000 ms ahead; the second one sets ACTIVE
    and the filter flag true.  No event other than a CONNECT click,
    time passing and a timer firing touches the status, the timers or
    the clock.  On a page with no timer of an earlier click pending,
    and with no further CONNECT click, this is the whole story: the
    state stays CONNECTING, with no timer due, for any wait under
    1500 ms, and time cannot run past 1500 ms before the timer fires;
    at 1500 ms the timer fires and sets QUEUED; the state stays QUEUED
    for any further wait under 2000 ms; at 2000 ms more the second
    timer fires and sets ACTIVE with the filter flag true, and no
    timer is left. *)
Theorem C5_connect_sequence (s : State) :
  ibmStatus s = DISCONNECTED ->
  (ibmStatus (connectToIBM s) = CONNECTING /\
   clock (connectToIBM s) = clock s /\
   timers (connectToIBM s) = timers s ++ [((clock s + 1500)%nat, OnQueued)]) /\
  (forall u : State,
     ibmStatus (runCallback OnQueued u) = QUEUED /\
     timers (runCallback OnQueued u)
       = timers u ++ [((clock u + 2000)%nat, OnAllocated)]) /\
  (forall u : State,
     ibmStatus (runCallback OnAllocated u) = ACTIVE /\
     quantumMode (runCallback OnAllocated u) = true /\
     timers (runCallback OnAllocated u) = timers u) /\
  (forall (e : Event) (u u' : State),
     session_event e = false -> step e u = Some u' ->
     ibmStatus u' = ibmStatus u /\ timers u' = timers u /\
     clock u' = clock u) /\
  (timers s = [] ->
   exists s1 s2 s3 : State,
    step Click_connect s = Some s1 /\
    ibmStatus s1 = CONNECTING /\ clock s1 = clock s /\
    (forall ms : nat, (ms < 1500)%nat ->
       exists s' : State,
         step (Elapse ms) s1 = Some s' /\ ibmStatus s' = CONNECTING /\
         step Timer_fire s' = None) /\
    (forall ms : nat, (1500 < ms)%nat -> step (Elapse ms) s1 = None) /\
    run [Elapse 1500; Timer_fire] s1 = Some s2 /\
    ibmStatus s2 = QUEUED /\ clock s2 = (clock s + 1500)%nat /\
    (forall ms : nat, (ms < 2000)%nat ->
       exists s' : State,
         step (Elapse ms) s2 = Some s' /\ ibmStatus s' = QUEUED /\
         step Timer_fire s' = None) /\
    (forall ms : nat, (2000 < ms)%nat -> step (Elapse ms) s2 = None) /\
    run [Elapse 2000; Timer_fire] s2 = Some s3 /\
    ibmStatus s3 = ACTIVE /\ clock s3 = (clock s + 1500 + 2000)%nat /\
    quantumMode s3 = true /\ timers s3 = []).
Proof.
  intros Hst.
  assert (Hcb2 : forall u : State,
            ibmStatus (runCallback OnAllocated u) = ACTIVE /\
            quantumMode (runCallback OnAllocated u) = true /\
            timers (runCallback OnAllocated u) = timers u).
  { intros u. unfold runCallback, setQuantumMode.
    destruct (Bool.eqb true _) eqn:E; repeat split.
    apply Bool.eqb_prop in E. symmetry. exact E. }
  split; [unfold connectToIBM; rewrite Hst; repeat split |].
  split; [intros u; split; reflexivity |].
  split; [exact Hcb2 |].
  split.
  { intros e u u' He H. destruct e; try discriminate He; cbn [step] in H.
    - injection H as <-. unfold toggleQuantumMode, setQuantumMode.
      destruct (Bool.eqb _ _); repeat split.
    - injection H as <-. unfold selectTarget.
      destruct (Target_eqb _ _); repeat split.
    - destruct (settle t (loading u)); [| discriminate H].
      injection H as <-. repeat split.
    - destruct (settle t (loading u)); [| discriminate H].
      injection H as <-. repeat split.
    - destruct (requestRef u); [| discriminate H]. injection H as <-.
      unfold processFrame. cbn.
      destruct (canvasRef u); [| repeat split].
      destruct (imageRef u); repeat split. }
  intros Hno.
  set (s1 := connectToIBM s).
  assert (T1 : timers s1 = [((clock s + 1500)%nat, OnQueued)]).
  { unfold s1, connectToIBM. rewrite Hst. cbn. rewrite Hno. reflexivity. }
  assert (K1 : clock s1 = clock s).
  { unfold s1, connectToIBM. rewrite Hst. reflexivity. }
  assert (I1 : ibmStatus s1 = CONNECTING).
  { unfold s1, connectToIBM. rewrite Hst. reflexivity. }
  set (w1 := set_clock (clock s1 + 1500) s1).
  set (s2 := runCallback OnQueued (set_timers [] w1)).
  assert (T2 : timers s2 = [((clock s + 1500 + 2000)%nat, OnAllocated)]).
  { unfold s2, w1. cbn. rewrite K1. reflexivity. }
  assert (K2 : clock s2 = (clock s + 1500)%nat).
  { unfold s2, w1. cbn. rewrite K1. reflexivity. }
  assert (I2 : ibmStatus s2 = QUEUED) by reflexivity.
  set (w2 := set_clock (clock s2 + 2000) s2).
  set (s3 := runCallback OnAllocated (set_timers [] w2)).
  exists s1, s2, s3.
  split; [reflexivity |]. split; [exact I1 |]. split; [exact K1 |].
  split.
  { intros ms Hms. exists (set_clock (clock s1 + ms) s1).
    split; [apply (elapse_up_to_due s1 _ _ T1); lia |].
    split; [exact I1 |].
    apply (fire_not_yet (set_clock (clock s1 + ms) s1) _ _ T1).
    cbn [clock set_clock]. lia. }
  split.
  { intros ms Hms. apply (elapse_past_due s1 _ _ T1). lia. }
  split.
  { cbn [run]. rewrite (elapse_up_to_due s1 _ _ T1) by lia.
    fold w1. rewrite (fire_when_due w1 _ _ T1) by (unfold w1; cbn [clock set_clock]; lia).
    reflexivity. }
  split; [exact I2 |]. split; [exact K2 |].
  split.
  { intros ms Hms. exists (set_clock (clock s2 + ms) s2).
    split; [apply (elapse_up_to_due s2 _ _ T2); lia |].
    split; [exact I2 |].
    apply (fire_not_yet (set_clock (clock s2 + ms) s2) _ _ T2).
    cbn [clock set_clock]. lia. }
  split.
  { intros ms Hms. apply (elapse_past_due s2 _ _ T2). lia. }
  split.
  { cbn [run]. rewrite (elapse_up_to_due s2 _ _ T2) by lia.
    fold w2. rewrite (fire_when_due w2 _ _ T2) by (unfold w2; cbn [clock set_clock]; lia).
    reflexivity. }
  destruct (Hcb2 (set_timers [] w2)) as (I3 & Q3 & T3). fold s3 in I3, Q3, T3.
  assert (K3 : clock s3 = (clock s + 1500 + 2000)%nat).
  { unfold s3, runCallback, setQuantumMode.
    destruct (Bool.eqb _ _); cbn [clock set_clock set_requestRef set_quantumMode
      frameLoopEffect addLog set_logs set_ibmStatus set_timers w2];
      unfold w2; cbn [clock set_clock]; rewrite K2; reflexivity. }
  repeat split; assumption.
Qed.

Lemma C5_connect_sequence_witness :
  exists s1 s2 s3 : State,
    step Click_connect tracking = Some s1 /\ ibmStatus s1 = CONNECTING /\
    run [Elapse 1500; Timer_fire] s1 = Some s2 /\ ibmStatus s2 = QUEUED /\
    run [Elapse 2000; Timer_fire] s2 = Some s3 /\ ibmStatus s3 = ACTIVE /\
    quantumMode s3 = true /\ clock s3 = (clock tracking + 1500 + 2000)%nat.
Proof.
  destruct (C5_connect_sequence tracking eq_refl) as (_ & _ & _ & _ & Hline).
  destruct (Hline eq_refl)
    as (s1 & s2 & s3 & H0 & H1 & _ & _ & _ & H2 & H3 & _ & _ & _ & H4 & H5 & H6 & H7 & _).
  exists s1, s2, s3.
  repeat split; assumption.
Defined.

(** C6.  A CONNECT click on an ACTIVE session sets DISCONNECTED in the
    handler itself: the timer queue and the clock are as before, so the
    click schedules nothing, and with no timer pending before it none
    can fire after it. *)
Theorem C6_disconnect_immediate (s : State) :
  ibmStatus s = ACTIVE ->
  exists s' : State,
    step Click_connect s = Some s' /\
    ibmStatus s' = DISCONNECTED /\
    timers s' = timers s /\ clock s' = clock s /\
    (timers s = [] -> step Timer_fire s' = None).
Proof.
  intros Hact. exists (connectToIBM s).
  split; [reflexivity |].
  unfold connectToIBM. rewrite Hact.
  split; [reflexivity |]. split; [reflexivity |]. split; [reflexivity |].
  intros Hno. cbn [step]. cbn. rewrite Hno. reflexivity.
Qed.

Lemma C6_disconnect_immediate_witness :
  exists s' : State,
    step Click_connect connected = Some s' /\
    ibmStatus s' = DISCONNECTED /\
    timers s' = timers connected /\ clock s' = clock connected /\
    step Timer_fire s' = None.
Proof.
  assert (Hact : ibmStatus connected = ACTIVE) by (vm_compute; reflexivity).
  assert (Hno : timers connected = []) by (vm_compute; reflexivity).
  destruct (C6_disconnect_immediate connected Hact)
    as (s' & H0 & H1 & H2 & H3 & H4).
  exists s'. repeat split; try assumption. exact (H4 Hno).
Defined.

(** C10.  Ending an ACTIVE session leaves the filter flag as it was.
    The flag the second timer callback forces true on entering ACTIVE
    is still true once the next CONNECT click has set DISCONNECTED.
    Of all the moves of the page, only the filter button takes the flag
    from true to false, and it does. *)
Theorem C10_disconnect_keeps_filter :
  (forall s : State,
     ibmStatus s = ACTIVE -> quantumMode (connectToIBM s) = quantumMode s) /\
  (forall s : State,
     let s1 := runCallback OnAllocated s in
     ibmStatus s1 = ACTIVE /\ quantumMode s1 = true /\
     ibmStatus (connectToIBM s1) = DISCONNECTED /\
     quantumMode (connectToIBM s1) = true) /\
  (forall (e : Event) (s s' : State),
     step e s = Some s' -> quantumMode s = true -> quantumMode s' = false ->
     e = Click_toggle) /\
  (forall s : State,
     quantumMode s = true ->
     exists s' : State, step Click_toggle s = Some s' /\ quantumMode s' = false).
Proof.
  assert (Hkeep : forall s : State,
            ibmStatus s = ACTIVE -> quantumMode (connectToIBM s) = quantumMode s).
  { intros s Hact. unfold connectToIBM. rewrite Hact. reflexivity. }
  assert (Hon : forall s : State,
            ibmStatus (runCallback OnAllocated s) = ACTIVE /\
            quantumMode (runCallback OnAllocated s) = true).
  { intros s. unfold runCallback, setQuantumMode.
    destruct (Bool.eqb true _) eqn:E; split; try reflexivity.
    apply Bool.eqb_prop in E. symmetry. exact E. }
  split; [exact Hkeep |]. split; [| split].
  - intros s s1. destruct (Hon s) as [Hact Hq]. fold s1 in Hact, Hq.
    split; [exact Hact |]. split; [exact Hq |]. split.
    + unfold connectToIBM. rewrite Hact. reflexivity.
    + rewrite (Hkeep s1 Hact). exact Hq.
  - exact step_keeps_filter_on.
  - intros s Hq. exists (toggleQuantumMode s). split; [reflexivity |].
    unfold toggleQuantumMode, setQuantumMode. rewrite Hq. reflexivity.
Qed.

Lemma C10_disconnect_keeps_filter_witness :
  quantumMode (connectToIBM connected) = quantumMode connected /\
  Click_toggle = Click_toggle /\
  (exists s' : State,
     step Click_toggle connected = Some s' /\ quantumMode s' = false).
Proof.
  destruct C10_disconnect_keeps_filter as (Hkeep & _ & Honly & Hoff).
  split; [| split].
  - apply (Hkeep connected). vm_compute. reflexivity.
  - apply (Honly Click_toggle connected (toggleQuantumMode connected)).
    + reflexivity.
    + vm_compute. reflexivity.
    + vm_compute. reflexivity.
  - apply (Hoff connected). vm_compute. reflexivity.
Defined.

(** ** Target selector and image loader (C7, C8) *)

Lemma Target_eqb_eq (a b : Target) : Target_eqb a b = true <-> a = b.
Proof. destruct a, b; cbn; split; intros H; congruence. Qed.

Lemma Target_eqb_refl (a : Target) : Target_eqb a a = true.
Proof. destruct a; reflexivity. Qed.

(** A request in flight can settle. *)
Lemma settle_pending (t : Target) (l : list Target) :
  In t l -> exists rest : list Target, settle t l = Some rest.
Proof.
  induction l as [| x l IH]; intros Hin; [contradiction |].
  cbn [settle]. destruct (Target_eqb t x) eqn:E.
  - exists l. reflexivity.
  - destruct Hin as [-> | Hin]; [rewrite Target_eqb_refl in E; discriminate |].
    destruct (IH Hin) as [rest ->]. exists (x :: rest). reflexivity.
Qed.

(** C7, as the specification words it, fails when Jupiter is selected
    on the page tracking the Moon and the request for its image fails:
    Jupiter is the selected target, and the metadata on display is
    still the Moon's. *)
Lemma C7_counterexample :
  exists s' : State,
    run [Click_target JUPITER; Image_error JUPITER] tracking = Some s' /\
    target s' = JUPITER /\
    ephemeris s' = TARGETS MOON /\
    ephemeris s' <> TARGETS JUPITER.
Proof.
  eexists. split; [vm_compute; reflexivity |].
  split; [reflexivity |]. split; [reflexivity |].
  vm_compute. discriminate.
Qed.

(** C7, amended.  For each of the four targets: selecting the current
    target changes nothing; selecting another one makes it the current
    target, puts a request for its image in flight and leaves the
    metadata on display as it was; when a request in flight for a
    target loads, the metadata on display becomes exactly that target's
    static record, so that a selection followed by the load of its
    image shows the selected target's record. *)
Theorem C7_metadata_follows_load (t : Target) :
  (forall s : State, t = target s -> selectTarget t s = s) /\
  (forall s : State, t <> target s ->
     target (selectTarget t s) = t /\
     ephemeris (selectTarget t s) = ephemeris s /\
     In t (loading (selectTarget t s))) /\
  (forall (s : State) (w h : nat), In t (loading s) ->
     exists s' : State,
       step (Image_load t w h) s = Some s' /\
       ephemeris s' = TARGETS t /\
       ra (ephemeris s') = ra (TARGETS t) /\
       dec (ephemeris s') = dec (TARGETS t) /\
       dist (ephemeris s') = dist (TARGETS t)) /\
  (forall (s : State) (w h : nat), t <> target s ->
     exists s' : State,
       run [Click_target t; Image_load t w h] s = Some s' /\
       target s' = t /\ ephemeris s' = TARGETS t).
Proof.
  assert (Hsel : forall s : State, t <> target s ->
            selectTarget t s = imageLoaderEffect (set_target t s)).
  { intros s Hne. unfold selectTarget.
    destruct (Target_eqb t (target s)) eqn:E; [| reflexivity].
    apply Target_eqb_eq in E. contradiction. }
  assert (Hload : forall (s : State) (w h : nat), In t (loading s) ->
            exists rest : list Target,
              step (Image_load t w h) s = Some (onload t w h (set_loading rest s))).
  { intros s w h Hin. destruct (settle_pending t (loading s) Hin) as [rest E].
    exists rest. cbn [step]. rewrite E. reflexivity. }
  split; [| split; [| split]].
  - intros s ->. unfold selectTarget. rewrite Target_eqb_refl. reflexivity.
  - intros s Hne. rewrite (Hsel s Hne).
    split; [reflexivity |]. split; [reflexivity |].
    cbn. apply in_or_app. right. left. reflexivity.
  - intros s w h Hin. destruct (Hload s w h Hin) as [rest E].
    eexists. split; [exact E |]. repeat split; reflexivity.
  - intros s w h Hne.
    assert (Hin : In t (loading (selectTarget t s))).
    { rewrite (Hsel s Hne). cbn. apply in_or_app. right. left. reflexivity. }
    destruct (Hload (selectTarget t s) w h Hin) as [rest E].
    eexists. cbn [run step] in E |- *. rewrite E.
    split; [reflexivity |]. split; [| reflexivity].
    rewrite (Hsel s Hne). reflexivity.
Qed.

Lemma C7_metadata_follows_load_witness :
  (target (selectTarget JUPITER tracking) = JUPITER /\
   ephemeris (selectTarget JUPITER tracking) = ephemeris tracking /\
   In JUPITER (loading (selectTarget JUPITER tracking))) /\
  (exists s' : State,
     step (Image_load JUPITER 800 800) (selectTarget JUPITER tracking) = Some s' /\
     ephemeris s' = TARGETS JUPITER /\
     ra (ephemeris s') = ra (TARGETS JUPITER) /\
     dec (ephemeris s') = dec (TARGETS JUPITER) /\
     dist (ephemeris s') = dist (TARGETS JUPITER)) /\
  (exists s' : State,
     run [Click_target JUPITER; Image_load JUPITER 800 800] tracking = Some s' /\
     target s' = JUPITER /\ ephemeris s' = TARGETS JUPITER).
Proof.
  destruct (C7_metadata_follows_load JUPITER) as (_ & Hsel & Hload & Hrun).
  split; [| split].
  - apply (Hsel tracking). vm_compute. discriminate.
  - apply (Hload (selectTarget JUPITER tracking) 800%nat 800%nat).
    vm_compute. left. reflexivity.
  - apply (Hrun tracking 800%nat 800%nat). vm_compute. discriminate.
Defined.

(** C8.  When a request in flight fails, the page takes the move and
    nothing but the list of requests changes: the image in [imageRef]
    is the one that was there, the canvas and the metadata are as they
    were, no log line is added, and the next frame paints what it
    would have painted. *)
Theorem C8_fetch_failure_absorbed (t : Target) (s : State) :
  In t (loading s) ->
  exists s' : State,
    step (Image_error t) s = Some s' /\
    imageRef s' = imageRef s /\
    canvasRef s' = canvasRef s /\
    ephemeris s' = ephemeris s /\
    logs s' = logs s /\
    (forall data : list Z,
       written (processFrame data s') = written (processFrame data s)).
Proof.
  intros Hin. destruct (settle_pending t (loading s) Hin) as [rest E].
  exists (set_loading rest s). cbn [step]. rewrite E.
  repeat split.
  intros data. unfold processFrame. cbn.
  destruct (canvasRef s); [| reflexivity].
  destruct (imageRef s); reflexivity.
Qed.

Lemma C8_fetch_failure_absorbed_witness :
  exists s' : State,
    step (Image_error JUPITER) (selectTarget JUPITER tracking) = Some s' /\
    imageRef s' = imageRef (selectTarget JUPITER tracking) /\
    canvasRef s' = canvasRef (selectTarget JUPITER tracking) /\
    ephemeris s' = ephemeris (selectTarget JUPITER tracking) /\
    logs s' = logs (selectTarget JUPITER tracking) /\
    (forall data : list Z,
       written (processFrame data s')
         = written (processFrame data (selectTarget JUPITER tracking))).
Proof.
  apply (C8_fetch_failure_absorbed JUPITER (selectTarget JUPITER tracking)).
  vm_compute. left. reflexivity.
Defined.

(** ** Frame processor without a surface or a bitmap (C9) *)

(** C9.  A frame that finds no canvas or no image returns the state it
    was given: nothing is put on the surface, no byte is transformed,
    the phase does not advance.  The animation-frame event that runs
    it is a move the page takes, and it leaves the surface, the phase
    and the log as they were. *)
Theorem C9_frame_skipped (s : State) (data : list Z) :
  canvasRef s = None \/ imageRef s = None ->
  processFrame data s = s /\
  (requestRef s = true ->
   exists s' : State,
     step (Animation_frame data) s = Some s' /\
     canvasRef s' = canvasRef s /\ written s' = written s /\
     phaseRef s' = phaseRef s /\ logs s' = logs s).
Proof.
  intros Hnone.
  assert (Hskip : forall u : State,
            canvasRef u = canvasRef s -> imageRef u = imageRef s ->
            processFrame data u = u).
  { intros u Hc Hi. unfold processFrame. rewrite Hc, Hi.
    destruct Hnone as [-> | ->]; [reflexivity |].
    destruct (canvasRef s); reflexivity. }
  split; [apply Hskip; reflexivity |].
  intros Hreq. exists (set_requestRef false s).
  cbn [step]. rewrite Hreq.
  rewrite (Hskip (set_requestRef false s)) by reflexivity.
  repeat split.
Qed.

Lemma C9_frame_skipped_witness :
  processFrame sample_frame mounted = mounted /\
  (exists s' : State,
     step (Animation_frame sample_frame) mounted = Some s' /\
     canvasRef s' = canvasRef mounted /\ written s' = written mounted /\
     phaseRef s' = phaseRef mounted /\ logs s' = logs mounted).
Proof.
  destruct (C9_frame_skipped mounted sample_frame (or_intror eq_refl))
    as [Hsame Hevent].
  split; [exact Hsame | exact (Hevent eq_refl)].
Defined.

(** * Further properties of the component *)

(** ** Bytes and noise *)

Section StoredBytes.

(** A store never leaves the byte range. *)
Lemma ToUint8Clamp_range (x : R) : (0 <= Js.ToUint8Clamp x <= 255)%Z.
Proof.
  destruct (ToUint8Clamp_nearest x) as [Hnear _].
  pose proof (clamp_bounds x) as Hc.
  assert (Habs : -0.5 <= clamp x 0 255 - IZR (Js.ToUint8Clamp x) <= 0.5)
    by (revert Hnear; unfold Rabs; destruct (Rcase_abs _); lra).
  split.
  - assert (H : (-1 < Js.ToUint8Clamp x)%Z) by (apply lt_IZR; lra). lia.
  - assert (H : (Js.ToUint8Clamp x < 256)%Z) by (apply lt_IZR; lra). lia.
Qed.

(** A value whose clamp is at least (at most) an integer is stored as
    at least (at most) that integer. *)
Lemma ToUint8Clamp_ge (z : Z) (x : R) :
  IZR z <= clamp x 0 255 -> (z <= Js.ToUint8Clamp x)%Z.
Proof.
  intros Hc.
  destruct (ToUint8Clamp_nearest x) as [Hnear _].
  assert (Habs : -0.5 <= clamp x 0 255 - IZR (Js.ToUint8Clamp x) <= 0.5)
    by (revert Hnear; unfold Rabs; destruct (Rcase_abs _); lra).
  assert (H : (z - 1 < Js.ToUint8Clamp x)%Z).
  { apply lt_IZR. rewrite minus_IZR. lra. }
  lia.
Qed.

Lemma ToUint8Clamp_le (z : Z) (x : R) :
  clamp x 0 255 <= IZR z -> (Js.ToUint8Clamp x <= z)%Z.
Proof.
  intros Hc.
  destruct (ToUint8Clamp_nearest x) as [Hnear _].
  assert (Habs : -0.5 <= clamp x 0 255 - IZR (Js.ToUint8Clamp x) <= 0.5)
    by (revert Hnear; unfold Rabs; destruct (Rcase_abs _); lra).
  assert (H : (Js.ToUint8Clamp x < z + 1)%Z).
  { apply lt_IZR. rewrite plus_IZR. lra. }
  lia.
Qed.

Lemma clamp_monotone (x y : R) : x <= y -> clamp x 0 255 <= clamp y 0 255.
Proof.
  intros H. unfold clamp, Rmax, Rmin.
  repeat (destruct (Rle_dec _ _)); lra.
Qed.

(** Stores keep the order of the values stored. *)
Lemma ToUint8Clamp_monotone (x y : R) :
  x <= y -> (Js.ToUint8Clamp x <= Js.ToUint8Clamp y)%Z.
Proof.
  intros Hxy. pose proof (clamp_monotone x y Hxy) as Hc.
  pose proof (ToUint8Clamp_nearest x) as Nx.
  pose proof (ToUint8Clamp_nearest y) as Ny.
  destruct (Z_le_gt_dec (Js.ToUint8Clamp x) (Js.ToUint8Clamp y)) as [Hle | Hgt];
    [exact Hle | exfalso].
  assert (Ax : -0.5 <= clamp x 0 255 - IZR (Js.ToUint8Clamp x) <= 0.5)
    by (destruct Nx as [B _]; revert B; unfold Rabs; destruct (Rcase_abs _); lra).
  assert (Ay : -0.5 <= clamp y 0 255 - IZR (Js.ToUint8Clamp y) <= 0.5)
    by (destruct Ny as [B _]; revert B; unfold Rabs; destruct (Rcase_abs _); lra).
  assert (Hs : (Js.ToUint8Clamp y + 1 <= Js.ToUint8Clamp x)%Z) by lia.
  apply IZR_le in Hs. rewrite plus_IZR in Hs.
  assert (E : clamp x 0 255 = clamp y 0 255) by lra.
  rewrite E in Nx.
  pose proof (nearest_ties_even_unique _ _ _ Nx Ny) as Heq. lia.
Qed.

(** The noise stays within 20 levels. *)
Lemma noise_bounded (i : nat) (phase : R) : -20 <= noise i phase <= 20.
Proof.
  unfold noise. pose proof (SIN_bound (INR i * 0.01 + phase)) as [Hlo Hhi]. lra.
Qed.

End StoredBytes.

(** ** The frame as a whole *)

(** Lists four elements at a time. *)
Lemma list_by_pixels (P : list Z -> Prop) :
  P [] -> (forall x0, P [x0]) -> (forall x0 x1, P [x0; x1]) ->
  (forall x0 x1 x2, P [x0; x1; x2]) ->
  (forall x0 x1 x2 x3 rest, P rest -> P (x0 :: x1 :: x2 :: x3 :: rest)) ->
  forall l : list Z, P l.
Proof.
  intros H0 H1 H2 H3 H4. fix IH 1. intros l.
  destruct l as [| x0 [| x1 [| x2 [| x3 rest]]]];
    [exact H0 | apply H1 | apply H2 | apply H3 | apply H4; apply IH].
Qed.

Lemma mod4_skip (k : nat) : (S (S (S (S k))) mod 4 = k mod 4)%nat.
Proof.
  replace (S (S (S (S k)))) with (k + 1 * 4)%nat by lia.
  apply Nat.Div0.mod_add.
Qed.

(** The loop keeps every byte at an alpha position and writes bytes in
    range at the others. *)
Lemma pixelShader_bytes (q : bool) (phase : R) (data : list Z) :
  forall (i k : nat),
    (forall a : Z, (k mod 4 = 3)%nat -> nth_error data k = Some a ->
       nth_error (pixelShader q phase i data) k = Some a) /\
    (forall v : Z, (k mod 4 <> 3)%nat ->
       nth_error (pixelShader q phase i data) k = Some v ->
       (0 <= v <= 255)%Z).
Proof.
  assert (Hr : forall n c, (0 <= shadeRed q n c <= 255)%Z)
    by (intros n c; unfold shadeRed; destruct q; apply ToUint8Clamp_range).
  assert (Hg : forall n c, (0 <= shadeGreen q n c <= 255)%Z)
    by (intros n c; unfold shadeGreen; destruct q; apply ToUint8Clamp_range).
  assert (Hb : forall n c, (0 <= shadeBlue q n c <= 255)%Z)
    by (intros n c; unfold shadeBlue; destruct q; apply ToUint8Clamp_range).
  induction data as [| x0 | x0 x1 | x0 x1 x2 | x0 x1 x2 x3 rest IH]
    using list_by_pixels; intros i k.
  - split; intros ? Hk H; destruct k; discriminate H.
  - split; intros ? Hk H; destruct k as [| [| k]]; cbn in H, Hk |- *;
      try discriminate; try (injection H as <-); auto.
  - split; intros ? Hk H; destruct k as [| [| [| k]]]; cbn in H, Hk |- *;
      try discriminate; try (injection H as <-); auto.
  - split; intros ? Hk H; destruct k as [| [| [| [| k]]]]; cbn in H, Hk |- *;
      try discriminate; try (injection H as <-); auto.
  - destruct k as [| [| [| [| k]]]].
    + split; intros ? Hk H; cbn in H, Hk |- *;
        try discriminate; try (injection H as <-); auto.
    + split; intros ? Hk H; cbn in H, Hk |- *;
        try discriminate; try (injection H as <-); auto.
    + split; intros ? Hk H; cbn in H, Hk |- *;
        try discriminate; try (injection H as <-); auto.
    + split; intros ? Hk H; cbn in H, Hk |- *;
        try congruence; try (injection H as <-); auto.
    + destruct (IH (i + 4)%nat k) as [IHa IHc].
      cbn [pixelShader nth_error]. rewrite mod4_skip.
      split; [exact IHa | exact IHc].
Qed.

(** X1.  A frame that is drawn puts back a buffer of the length it
    read; every byte at an alpha position (offset 3 of a pixel) is the
    one it read, and every other byte it writes lies between 0 and
    255, whatever the bytes read, the phase and the filter flag. *)
Theorem X1_frame_shape
  (s : State) (data : list Z) (canvas : Canvas) (img : Image) :
  canvasRef s = Some canvas -> imageRef s = Some img ->
  List.length (written (processFrame data s)) = List.length data /\
  (forall (k : nat) (a : Z),
     (k mod 4 = 3)%nat -> nth_error data k = Some a ->
     nth_error (written (processFrame data s)) k = Some a) /\
  (forall (k : nat) (v : Z),
     (k mod 4 <> 3)%nat ->
     nth_error (written (processFrame data s)) k = Some v ->
     (0 <= v <= 255)%Z).
Proof.
  intros Hc Hi.
  destruct (processFrame_draws s data canvas img Hc Hi) as (Hw & _ & _).
  rewrite Hw. split; [apply pixelShader_length |].
  split; intros k v Hk H;
    destruct (pixelShader_bytes (quantumMode s) (phaseRef s + 0.15) data 0 k)
      as [Ha Hcol]; auto.
Qed.

Lemma X1_frame_shape_witness :
  List.length (written (processFrame [7; 300; -4; 9; 1]%Z filtering)) = 5%nat /\
  nth_error (written (processFrame [7; 300; -4; 9; 1]%Z filtering)) 3
    = Some 9%Z /\
  (forall v : Z,
     nth_error (written (processFrame [7; 300; -4; 9; 1]%Z filtering)) 1 = Some v ->
     (0 <= v <= 255)%Z).
Proof.
  destruct (X1_frame_shape filtering [7; 300; -4; 9; 1]%Z _ _ eq_refl eq_refl)
    as (Hlen & Halpha & Hcolour).
  split; [exact Hlen |]. split.
  - apply (Halpha 3%nat 9%Z); reflexivity.
  - intros v. apply (Hcolour 1%nat v). cbn. discriminate.
Defined.

(** ** What the two formulas do to a pixel *)

Lemma IZR_Zmin (a b : Z) : IZR (Z.min a b) = Rmin (IZR a) (IZR b).
Proof.
  unfold Rmin. destruct (Rle_dec (IZR a) (IZR b)) as [H | H].
  - apply le_IZR in H. rewrite Z.min_l by exact H. reflexivity.
  - apply Rnot_le_lt, lt_IZR in H. rewrite Z.min_r by lia. reflexivity.
Qed.

Lemma IZR_Zmax (a b : Z) : IZR (Z.max a b) = Rmax (IZR a) (IZR b).
Proof.
  unfold Rmax. destruct (Rle_dec (IZR a) (IZR b)) as [H | H].
  - apply le_IZR in H. rewrite Z.max_r by exact H. reflexivity.
  - apply Rnot_le_lt, lt_IZR in H. rewrite Z.max_l by lia. reflexivity.
Qed.

(** A filtered store of [c + k - noise], for a byte [c], an integer
    boost [k] and a noise within 20 levels. *)
Lemma boosted_store (c k : Z) (n : R) :
  (0 <= c <= 255)%Z -> (20 <= k)%Z -> -20 <= n <= 20 ->
  (Z.min 255 (c + (k - 20))
     <= Js.ToUint8Clamp (Js.Math_min 255 (IZR c + IZR k - n))
     <= Z.min 255 (c + (k + 20)))%Z.
Proof.
  intros [Hc0 Hc255] Hk Hn. apply IZR_le in Hc0, Hc255, Hk. split.
  - apply ToUint8Clamp_ge.
    rewrite IZR_Zmin, plus_IZR, minus_IZR. unfold clamp, Js.Math_min, Rmax, Rmin.
    repeat (destruct (Rle_dec _ _)); lra.
  - apply ToUint8Clamp_le.
    rewrite IZR_Zmin, !plus_IZR. unfold clamp, Js.Math_min, Rmax, Rmin.
    repeat (destruct (Rle_dec _ _)); lra.
Qed.

(** X2.  With the filter on no channel of a pixel gets darker.  For
    bytes [r], [g], [b] read, the red byte written is
    [min(255, r + 10)], the green one lies between [min(255, g + 20)]
    and [min(255, g + 60)], the blue one between [min(255, b + 30)] and
    [min(255, b + 70)]; so green from 235 and blue from 225 up are
    written as 255. *)
Theorem X2_filter_on_brightens
  (s : State) (data : list Z) (canvas : Canvas) (img : Image)
  (p : nat) (r g b a : Z) :
  canvasRef s = Some canvas -> imageRef s = Some img ->
  quantumMode s = true ->
  nth_error data (4 * p) = Some r ->
  nth_error data (4 * p + 1) = Some g ->
  nth_error data (4 * p + 2) = Some b ->
  nth_error data (4 * p + 3) = Some a ->
  (0 <= r <= 255)%Z -> (0 <= g <= 255)%Z -> (0 <= b <= 255)%Z ->
  exists r' g' b' : Z,
    nth_error (written (processFrame data s)) (4 * p) = Some r' /\
    nth_error (written (processFrame data s)) (4 * p + 1) = Some g' /\
    nth_error (written (processFrame data s)) (4 * p + 2) = Some b' /\
    r' = Z.min 255 (r + 10) /\
    (Z.min 255 (g + 20) <= g' <= Z.min 255 (g + 60))%Z /\
    (Z.min 255 (b + 30) <= b' <= Z.min 255 (b + 70))%Z /\
    (r <= r' /\ g <= g' /\ b <= b')%Z.
Proof.
  intros Hc Hi Hq Hr Hg Hb Ha Br Bg Bb.
  destruct (processFrame_draws s data canvas img Hc Hi) as (Hw & _ & _).
  destruct (pixelShader_pixel (quantumMode s) (phaseRef s + 0.15) p 0 data
              r g b a Hr Hg Hb Ha) as (Er & Eg & Eb & _).
  rewrite Hw. rewrite Hq in Er, Eg, Eb |- *. cbn [Nat.add] in Er, Eg, Eb.
  pose proof (noise_bounded (4 * p) (phaseRef s + 0.15)) as Hn.
  set (n := noise (4 * p) (phaseRef s + 0.15)) in *.
  assert (Rr : shadeRed true n r = Z.min 255 (r + 10)).
  { unfold shadeRed, Js.Math_min.
    replace (Rmin 255 (IZR r + 10)) with (IZR (Z.min 255 (r + 10)))
      by (rewrite IZR_Zmin, plus_IZR; reflexivity).
    rewrite ToUint8Clamp_IZR. lia. }
  assert (Rg : (Z.min 255 (g + 20) <= shadeGreen true n g
                <= Z.min 255 (g + 60))%Z).
  { assert (H40 : (20 <= 40)%Z) by lia.
    pose proof (boosted_store g 40 n Bg H40 Hn) as H.
    fold (shadeGreen true n g) in H. lia. }
  assert (Rb : (Z.min 255 (b + 30) <= shadeBlue true n b
                <= Z.min 255 (b + 70))%Z).
  { assert (H50 : (20 <= 50)%Z) by lia.
    pose proof (boosted_store b 50 n Bb H50 Hn) as H.
    fold (shadeBlue true n b) in H. lia. }
  exists (shadeRed true n r), (shadeGreen true n g), (shadeBlue true n b).
  split; [exact Er |]. split; [exact Eg |]. split; [exact Eb |].
  split; [exact Rr |].
  split; [exact Rg |]. split; [exact Rb |]. rewrite Rr. lia.
Qed.

Lemma X2_filter_on_brightens_witness :
  exists r' g' b' : Z,
    nth_error (written (processFrame sample_frame filtering)) 4 = Some r' /\
    nth_error (written (processFrame sample_frame filtering)) 5 = Some g' /\
    nth_error (written (processFrame sample_frame filtering)) 6 = Some b' /\
    r' = Z.min 255 (100 + 10) /\
    (Z.min 255 (100 + 20) <= g' <= Z.min 255 (100 + 60))%Z /\
    (Z.min 255 (100 + 30) <= b' <= Z.min 255 (100 + 70))%Z /\
    (100 <= r' /\ 100 <= g' /\ 100 <= b')%Z.
Proof.
  apply (X2_filter_on_brightens filtering sample_frame _ _ 1 100 100 100 255
           eq_refl eq_refl eq_refl eq_refl eq_refl eq_refl eq_refl); lia.
Defined.

(** X3.  With the filter off the three channels of a pixel go through
    one and the same map, which keeps the order of levels and moves a
    byte by at most 20 levels: a grey pixel stays grey, and the
    brightest channel of a pixel stays the brightest. *)
Theorem X3_filter_off_shifts_together
  (s : State) (data : list Z) (canvas : Canvas) (img : Image)
  (p : nat) (r g b a : Z) :
  canvasRef s = Some canvas -> imageRef s = Some img ->
  quantumMode s = false ->
  nth_error data (4 * p) = Some r ->
  nth_error data (4 * p + 1) = Some g ->
  nth_error data (4 * p + 2) = Some b ->
  nth_error data (4 * p + 3) = Some a ->
  exists f : Z -> Z,
    nth_error (written (processFrame data s)) (4 * p) = Some (f r) /\
    nth_error (written (processFrame data s)) (4 * p + 1) = Some (f g) /\
    nth_error (written (processFrame data s)) (4 * p + 2) = Some (f b) /\
    (forall x y : Z, (x <= y)%Z -> (f x <= f y)%Z) /\
    (forall x : Z, (0 <= x <= 255)%Z ->
       (Z.max 0 (x - 20) <= f x <= Z.min 255 (x + 20))%Z).
Proof.
  intros Hc Hi Hq Hr Hg Hb Ha.
  destruct (processFrame_draws s data canvas img Hc Hi) as (Hw & _ & _).
  destruct (pixelShader_pixel (quantumMode s) (phaseRef s + 0.15) p 0 data
              r g b a Hr Hg Hb Ha) as (Er & Eg & Eb & _).
  rewrite Hw. rewrite Hq in Er, Eg, Eb |- *. cbn [Nat.add] in Er, Eg, Eb.
  pose proof (noise_bounded (4 * p) (phaseRef s + 0.15)) as Hn.
  set (n := noise (4 * p) (phaseRef s + 0.15)) in *.
  exists (fun c => Js.ToUint8Clamp (Js.Math_max 0 (IZR c + n))).
  split; [exact Er |]. split; [exact Eg |]. split; [exact Eb |].
  split.
  - intros x y Hxy. apply ToUint8Clamp_monotone.
    apply IZR_le in Hxy. unfold Js.Math_max, Rmax.
    repeat (destruct (Rle_dec _ _)); lra.
  - intros x [Hx0 Hx255]. apply IZR_le in Hx0, Hx255. split.
    + apply ToUint8Clamp_ge.
      rewrite IZR_Zmax, minus_IZR.
      unfold clamp, Js.Math_max, Rmax, Rmin.
      repeat (destruct (Rle_dec _ _)); lra.
    + apply ToUint8Clamp_le.
      rewrite IZR_Zmin, plus_IZR.
      unfold clamp, Js.Math_max, Rmax, Rmin.
      repeat (destruct (Rle_dec _ _)); lra.
Qed.

Lemma X3_filter_off_shifts_together_witness :
  exists f : Z -> Z,
    nth_error (written (processFrame sample_frame tracking)) 4 = Some (f 100%Z) /\
    nth_error (written (processFrame sample_frame tracking)) 5 = Some (f 100%Z) /\
    nth_error (written (processFrame sample_frame tracking)) 6 = Some (f 100%Z) /\
    (forall x y : Z, (x <= y)%Z -> (f x <= f y)%Z) /\
    (forall x : Z, (0 <= x <= 255)%Z ->
       (Z.max 0 (x - 20) <= f x <= Z.min 255 (x + 20))%Z).
Proof.
  exact (X3_filter_off_shifts_together tracking sample_frame _ _ 1 100 100 100 255
           eq_refl eq_refl eq_refl eq_refl eq_refl eq_refl eq_refl).
Defined.

(** ** The animation loop *)

(** One frame drawn: what it leaves in the state. *)
Lemma frame_event_draws (s : State) (data : list Z) (canvas : Canvas) (img : Image) :
  canvasRef s = Some canvas -> imageRef s = Some img -> requestRef s = true ->
  exists s' : State,
    step (Animation_frame data) s = Some s' /\
    phaseRef s' = phaseRef s + 0.15 /\
    requestRef s' = true /\
    imageRef s' = Some img /\
    canvasRef s'
      = Some (mkCanvas (width canvas) (height canvas)
                (Some (pixelShader (quantumMode s) (phaseRef s + 0.15) 0 data))
                (Some (strokeStyle (quantumMode s)))) /\
    quantumMode s' = quantumMode s /\ logs s' = logs s /\
    ibmStatus s' = ibmStatus s /\ timers s' = timers s /\ clock s' = clock s.
Proof.
  intros Hc Hi Hreq. exists (processFrame data (set_requestRef false s)).
  cbn [step]. rewrite Hreq.
  split; [reflexivity |]. unfold processFrame. cbn. rewrite Hc, Hi. cbn.
  repeat split; try reflexivity. exact Hi.
Qed.

(** X4.  Once a frame can be drawn the loop keeps itself going: with a
    canvas, an image and a request pending, any number of animation
    frames run one after the other, each re-arming the next; the
    canvas keeps its size, the surface ends with as many bytes as the
    last buffer read, and the filter flag, the session, its timers,
    the log and the image are not touched. *)
Theorem X4_frame_loop_runs (buffers : list (list Z)) :
  forall (s : State) (canvas : Canvas) (img : Image),
    canvasRef s = Some canvas -> imageRef s = Some img -> requestRef s = true ->
    exists s' : State,
      run (frames buffers) s = Some s' /\
      requestRef s' = true /\
      imageRef s' = Some img /\
      (exists canvas' : Canvas,
         canvasRef s' = Some canvas' /\
         width canvas' = width canvas /\ height canvas' = height canvas) /\
      quantumMode s' = quantumMode s /\ logs s' = logs s /\
      ibmStatus s' = ibmStatus s /\ timers s' = timers s /\
      (forall (earlier : list (list Z)) (final : list Z),
         buffers = earlier ++ [final] ->
         List.length (written s') = List.length final).
Proof.
  induction buffers as [| data rest IH]; intros s canvas img Hc Hi Hreq.
  - exists s. cbn [frames map run].
    split; [reflexivity |]. split; [exact Hreq |].
    split; [exact Hi |]. split; [exists canvas; auto |].
    repeat split. intros earlier final E. destruct earlier; discriminate E.
  - destruct (frame_event_draws s data canvas img Hc Hi Hreq)
      as (s1 & E1 & _ & R1 & I1 & C1 & Q1 & L1 & S1 & T1 & _).
    destruct (IH s1 _ img C1 I1 R1)
      as (s' & E' & R' & I' & (canvas' & C' & W' & H') & Q' & L' & S' & T' & Last').
    exists s'. cbn [frames map run]. rewrite E1. fold (frames rest).
    split; [exact E' |].
    split; [exact R' |]. split; [exact I' |]. split.
    { exists canvas'. cbn in W', H'. auto. }
    split; [congruence |]. split; [congruence |]. split; [congruence |].
    split; [congruence |].
    intros earlier final E. destruct earlier as [| d0 earlier].
    + cbn in E. injection E as Ed Er. subst data rest.
      cbn [frames map run] in E'. injection E' as <-.
      unfold written. rewrite C1. cbn. apply pixelShader_length.
    + cbn in E. injection E as _ Er. subst rest.
      apply (Last' earlier final eq_refl).
Qed.

Lemma X4_frame_loop_runs_witness :
  exists s' : State,
    run (frames [sample_frame; [1; 2; 3; 4]%Z; sample_frame]) filtering = Some s' /\
    requestRef s' = true /\
    quantumMode s' = quantumMode filtering /\
    List.length (written s') = List.length sample_frame.
Proof.
  destruct (X4_frame_loop_runs [sample_frame; [1; 2; 3; 4]%Z; sample_frame]
              filtering _ _ eq_refl eq_refl eq_refl)
    as (s' & E & R & _ & _ & Q & _ & _ & _ & Last).
  exists s'. split; [exact E |]. split; [exact R |]. split; [exact Q |].
  apply (Last [sample_frame; [1; 2; 3; 4]%Z] sample_frame). reflexivity.
Defined.

(** A move that does not change the filter flag leaves a loop that is
    not armed as it is, and the canvas and the phase with it. *)
Lemma step_unarmed (e : Event) (s s' : State) :
  requestRef s = false -> step e s = Some s' ->
  canvasRef s' = canvasRef s /\ phaseRef s' = phaseRef s /\
  (requestRef s' = true -> quantumMode s' = negb (quantumMode s)).
Proof.
  intros Hreq H. destruct e; cbn [step] in H.
  - injection H as <-. unfold connectToIBM. destruct (ibmStatus s); cbn;
      rewrite Hreq; repeat split; discriminate.
  - injection H as <-. unfold toggleQuantumMode, setQuantumMode.
    destruct (quantumMode s) eqn:Q; cbn; rewrite ?Q; repeat split.
  - injection H as <-. unfold selectTarget.
    destruct (Target_eqb t (target s)); cbn; rewrite ?Hreq;
      repeat split; discriminate.
  - destruct (settle t (loading s)); [| discriminate H]. injection H as <-.
    cbn. rewrite Hreq. repeat split; discriminate.
  - destruct (settle t (loading s)); [| discriminate H]. injection H as <-.
    cbn. rewrite Hreq. repeat split; discriminate.
  - destruct (may_elapse ms s); [| discriminate H]. injection H as <-.
    cbn. rewrite Hreq. repeat split; discriminate.
  - destruct (next_due (clock s) (timers s)) as [[cb rest] |]; [| discriminate H].
    injection H as <-. destruct cb; unfold runCallback, setQuantumMode.
    + cbn. rewrite Hreq. repeat split; discriminate.
    + cbn. destruct (quantumMode s) eqn:Q; cbn; rewrite ?Hreq, ?Q;
        repeat split; discriminate.
  - rewrite Hreq in H. discriminate H.
Qed.

(** X5.  A frame that comes before the canvas or the image returns
    without asking for the next one, and the loop stays down: no
    animation frame can run, and the canvas and the phase stay as they
    are, through any clicks on CONNECT or on a target, image loads and
    failures, and waits.  Only a move that flips the filter flag arms
    the loop again; a click on the filter button always does. *)
Theorem X5_frame_loop_stalls :
  (forall (s : State) (data : list Z),
     requestRef s = true -> canvasRef s = None \/ imageRef s = None ->
     exists s' : State,
       step (Animation_frame data) s = Some s' /\ requestRef s' = false) /\
  (forall (e : Event) (s s' : State),
     requestRef s = false -> step e s = Some s' ->
     requestRef s' = true -> quantumMode s' = negb (quantumMode s)) /\
  (forall (es : list Event) (s s' : State),
     requestRef s = false -> forallb leaves_filter es = true ->
     run es s = Some s' ->
     requestRef s' = false /\ canvasRef s' = canvasRef s /\
     phaseRef s' = phaseRef s /\
     forall data : list Z, step (Animation_frame data) s' = None) /\
  (forall s : State, requestRef (toggleQuantumMode s) = true).
Proof.
  split; [| split; [| split]].
  - intros s data Hreq Hnone. exists (set_requestRef false s).
    cbn [step]. rewrite Hreq. split; [| reflexivity].
    f_equal. unfold processFrame. cbn.
    destruct Hnone as [-> | ->]; [reflexivity |].
    destruct (canvasRef s); reflexivity.
  - intros e s s' Hreq H. apply (step_unarmed e s s' Hreq H).
  - induction es as [| e es IH]; intros s s' Hreq Hall H; cbn [run] in H.
    + injection H as <-. repeat split; try assumption.
      intros data. cbn [step]. rewrite Hreq. reflexivity.
    + cbn [forallb] in Hall. apply andb_prop in Hall as [He Hes].
      destruct (step e s) as [s1 |] eqn:E; [| discriminate H].
      destruct (step_unarmed e s s1 Hreq E) as (C1 & P1 & Q1).
      assert (R1 : requestRef s1 = false).
      { destruct (requestRef s1) eqn:R; [| reflexivity]. exfalso.
        specialize (Q1 eq_refl).
        assert (Hq : quantumMode s1 = quantumMode s).
        { destruct e; try discriminate He; cbn [step] in E.
          - injection E as <-. unfold connectToIBM. destruct (ibmStatus s); reflexivity.
          - injection E as <-. unfold selectTarget.
            destruct (Target_eqb t (target s)); reflexivity.
          - destruct (settle t (loading s)); [| discriminate E].
            injection E as <-. reflexivity.
          - destruct (settle t (loading s)); [| discriminate E].
            injection E as <-. reflexivity.
          - destruct (may_elapse ms s); [| discriminate E].
            injection E as <-. reflexivity.
          - rewrite Hreq in E. discriminate E. }
        rewrite Hq in Q1. destruct (quantumMode s); discriminate Q1. }
      destruct (IH s1 s' R1 Hes H) as (R' & C' & P' & F').
      repeat split; try assumption; congruence.
  - intros s. unfold toggleQuantumMode, setQuantumMode.
    destruct (quantumMode s); reflexivity.
Qed.

Lemma X5_frame_loop_stalls_witness :
  (exists s' : State,
     step (Animation_frame sample_frame) mounted = Some s' /\
     requestRef s' = false) /\
  (exists s' : State,
     run [Image_load MOON 600 600; Click_connect; Elapse 1500] stalled = Some s' /\
     requestRef s' = false /\ canvasRef s' = canvasRef stalled /\
     step (Animation_frame sample_frame) s' = None).
Proof.
  destruct X5_frame_loop_stalls as (Hskip & _ & Hdown & _).
  split.
  - apply (Hskip mounted sample_frame); [reflexivity | right; reflexivity].
  - assert (E : run [Image_load MOON 600 600; Click_connect; Elapse 1500] stalled
                = Some (after [Image_load MOON 600 600; Click_connect; Elapse 1500]
                          stalled))
      by (vm_compute; reflexivity).
    destruct (Hdown [Image_load MOON 600 600; Click_connect; Elapse 1500]
                stalled _ eq_refl eq_refl E) as (R & C & _ & F).
    eexists. split; [exact E |]. split; [exact R |]. split; [exact C |].
    apply F.
Defined.


(** ** The session: clicks that overlap *)

(** X7.  The CONNECT handler never cancels a timer: whatever timers
    were pending are still pending after it, in their order.  A click
    while CONNECTING or QUEUED starts a second sequence on top of the
    first.  And a session ended while a callback of an earlier click
    is still pending comes back: when that callback is due it sets
    ACTIVE and the filter flag again, with no click. *)
Theorem X7_connect_cancels_nothing :
  (forall s : State,
     exists added : list (nat * Callback),
       timers (connectToIBM s) = timers s ++ added) /\
  (forall s : State,
     ibmStatus s = CONNECTING \/ ibmStatus s = QUEUED ->
     ibmStatus (connectToIBM s) = CONNECTING /\
     timers (connectToIBM s) = timers s ++ [((clock s + 1500)%nat, OnQueued)]) /\
  (forall (s : State) (due : nat),
     ibmStatus s = ACTIVE -> timers s = [(due, OnAllocated)] ->
     (clock s <= due)%nat ->
     exists s1 s2 : State,
       step Click_connect s = Some s1 /\ ibmStatus s1 = DISCONNECTED /\
       run [Elapse (due - clock s); Timer_fire] s1 = Some s2 /\
       ibmStatus s2 = ACTIVE /\ quantumMode s2 = true /\ clock s2 = due).
Proof.
  split; [| split].
  - intros s. unfold connectToIBM. destruct (ibmStatus s); cbn.
    + eexists. reflexivity.
    + eexists. reflexivity.
    + eexists. reflexivity.
    + exists []. symmetry. apply app_nil_r.
  - intros s [H | H]; unfold connectToIBM; rewrite H; split; reflexivity.
  - intros s due Hact Ht Hdue.
    set (s1 := connectToIBM s).
    assert (T1 : timers s1 = [(due, OnAllocated)])
      by (unfold s1, connectToIBM; rewrite Hact; exact Ht).
    assert (K1 : clock s1 = clock s)
      by (unfold s1, connectToIBM; rewrite Hact; reflexivity).
    assert (I1 : ibmStatus s1 = DISCONNECTED)
      by (unfold s1, connectToIBM; rewrite Hact; reflexivity).
    set (w1 := set_clock (clock s1 + (due - clock s)) s1).
    exists s1, (runCallback OnAllocated (set_timers [] w1)).
    split; [reflexivity |]. split; [exact I1 |].
    split.
    { cbn [run]. rewrite (elapse_up_to_due s1 _ _ T1) by lia. fold w1.
      rewrite (fire_when_due w1 _ _ T1) by (unfold w1; cbn [clock set_clock]; lia).
      reflexivity. }
    unfold runCallback, setQuantumMode.
    destruct (Bool.eqb true _) eqn:E; cbn; repeat split;
      try (rewrite K1; lia).
    apply Bool.eqb_prop in E. cbn in E. symmetry. exact E.
Qed.

Lemma X7_connect_cancels_nothing_witness :
  (ibmStatus (connectToIBM (connectToIBM tracking)) = CONNECTING /\
   timers (connectToIBM (connectToIBM tracking))
     = timers (connectToIBM tracking)
         ++ [((clock (connectToIBM tracking) + 1500)%nat, OnQueued)]) /\
  (exists s1 s2 : State,
     step Click_connect twice_connected = Some s1 /\
     ibmStatus s1 = DISCONNECTED /\
     run [Elapse (4500 - clock twice_connected); Timer_fire] s1 = Some s2 /\
     ibmStatus s2 = ACTIVE /\ quantumMode s2 = true /\ clock s2 = 4500%nat).
Proof.
  destruct X7_connect_cancels_nothing as (_ & Hagain & Hback).
  split.
  - apply (Hagain (connectToIBM tracking)). left. reflexivity.
  - apply (Hback twice_connected 4500%nat).
    + vm_compute. reflexivity.
    + vm_compute. reflexivity.
    + vm_compute. lia.
Defined.

Lemma step_moving_on (e : Event) (s s' : State) :
  step e s = Some s' -> moving_on s -> moving_on s'.
Proof.
  intros H Hinv. destruct e; cbn [step] in H.
  - injection H as <-. unfold connectToIBM.
    destruct (ibmStatus s) eqn:St; split; cbn; intros Hst; try discriminate Hst;
      eexists; apply in_or_app; right; left; reflexivity.
  - injection H as <-. unfold toggleQuantumMode, setQuantumMode.
    destruct (Bool.eqb _ _); exact Hinv.
  - injection H as <-. unfold selectTarget.
    destruct (Target_eqb _ _); exact Hinv.
  - destruct (settle t (loading s)); [| discriminate H]. injection H as <-.
    exact Hinv.
  - destruct (settle t (loading s)); [| discriminate H]. injection H as <-.
    exact Hinv.
  - destruct (may_elapse ms s); [| discriminate H]. injection H as <-.
    exact Hinv.
  - destruct (next_due (clock s) (timers s)) as [[cb rest] |]; [| discriminate H].
    injection H as <-. destruct cb; unfold runCallback, setQuantumMode.
    + split; cbn; intros Hst; try discriminate Hst.
      eexists. apply in_or_app. right. left. reflexivity.
    + destruct (Bool.eqb _ _); split; cbn; intros Hst; discriminate Hst.
  - destruct (requestRef s); [| discriminate H]. injection H as <-.
    unfold processFrame. cbn.
    destruct (canvasRef s); [| exact Hinv].
    destruct (imageRef s); exact Hinv.
Qed.

(** X8.  The session is never left waiting for nothing: in every
    state the page reaches, whatever the clicks and their timing, a
    CONNECTING session has its first callback pending and a QUEUED
    session has its second callback pending. *)
Theorem X8_session_keeps_moving (es : list Event) :
  forall s s' : State,
    run es s = Some s' ->
    ((ibmStatus s = CONNECTING ->
        exists due : nat, In (due, OnQueued) (timers s)) /\
     (ibmStatus s = QUEUED ->
        exists due : nat, In (due, OnAllocated) (timers s))) ->
    (ibmStatus s' = CONNECTING ->
       exists due : nat, In (due, OnQueued) (timers s')) /\
    (ibmStatus s' = QUEUED ->
       exists due : nat, In (due, OnAllocated) (timers s')).
Proof.
  induction es as [| e es IH]; intros s s' H Hinv; cbn [run] in H.
  - injection H as <-. exact Hinv.
  - destruct (step e s) as [s1 |] eqn:E; [| discriminate H].
    apply (IH s1 s' H). exact (step_moving_on e s s1 E Hinv).
Qed.

Lemma X8_session_keeps_moving_witness :
  exists due : nat,
    In (due, OnAllocated)
       (timers (after [Click_connect; Elapse 700; Click_connect; Elapse 800;
                       Timer_fire] mounted)).
Proof.
  assert (Hstart : (ibmStatus mounted = CONNECTING ->
                      exists due : nat, In (due, OnQueued) (timers mounted)) /\
                   (ibmStatus mounted = QUEUED ->
                      exists due : nat, In (due, OnAllocated) (timers mounted)))
    by (split; intros H; vm_compute in H; discriminate H).
  assert (Hrun : run [Click_connect; Elapse 700; Click_connect; Elapse 800;
                      Timer_fire] mounted
                 = Some (after [Click_connect; Elapse 700; Click_connect;
                                Elapse 800; Timer_fire] mounted))
    by (vm_compute; reflexivity).
  destruct (X8_session_keeps_moving _ mounted _ Hrun Hstart) as [_ Hqueued].
  apply Hqueued. vm_compute. reflexivity.
Defined.

(** ** Image loads that overlap *)

Lemma step_shows_own_metadata (e : Event) (s s' : State) :
  step e s = Some s' -> shows_own_metadata s -> shows_own_metadata s'.
Proof.
  intros H Hinv. unfold shows_own_metadata in *. destruct e; cbn [step] in H.
  - injection H as <-. unfold connectToIBM. destruct (ibmStatus s); exact Hinv.
  - injection H as <-. unfold toggleQuantumMode, setQuantumMode.
    destruct (Bool.eqb _ _); exact Hinv.
  - injection H as <-. unfold selectTarget.
    destruct (Target_eqb _ _); exact Hinv.
  - destruct (settle t (loading s)); [| discriminate H]. injection H as <-.
    cbn. exists t. split; reflexivity.
  - destruct (settle t (loading s)); [| discriminate H]. injection H as <-.
    exact Hinv.
  - destruct (may_elapse ms s); [| discriminate H]. injection H as <-.
    exact Hinv.
  - destruct (next_due (clock s) (timers s)) as [[cb rest] |]; [| discriminate H].
    injection H as <-. destruct cb; unfold runCallback, setQuantumMode.
    + exact Hinv.
    + destruct (Bool.eqb _ _); exact Hinv.
  - destruct (requestRef s); [| discriminate H]. injection H as <-.
    unfold processFrame. cbn.
    destruct (canvasRef s); [| exact Hinv].
    destruct (imageRef s) eqn:Ei; cbn; rewrite Ei; exact Hinv.
Qed.

(** X9.  The metadata panel always describes the image on the canvas.
    In every state the page reaches, while no image has loaded the
    panel shows the Moon's record, and once one has, the panel shows
    the record of the very target whose url the image was loaded
    from, whichever target is selected at that moment. *)
Theorem X9_metadata_matches_image (es : list Event) :
  forall s' : State,
    run es mounted = Some s' ->
    match imageRef s' with
    | None => ephemeris s' = TARGETS MOON
    | Some img =>
        exists t : Target, src img = url (TARGETS t) /\ ephemeris s' = TARGETS t
    end.
Proof.
  assert (Hgen : forall (l : list Event) (s s' : State),
            run l s = Some s' -> shows_own_metadata s -> shows_own_metadata s').
  { induction l as [| e l IH]; intros s s' H Hinv; cbn [run] in H.
    - injection H as <-. exact Hinv.
    - destruct (step e s) as [s1 |] eqn:E; [| discriminate H].
      apply (IH s1 s' H). exact (step_shows_own_metadata e s s1 E Hinv). }
  intros s' H. apply (Hgen es mounted s' H). reflexivity.
Qed.

Lemma X9_metadata_matches_image_witness :
  exists t : Target,
    src (mkImage (url (TARGETS MARS)) 640 480) = url (TARGETS t) /\
    ephemeris (after [Click_target MARS; Image_load MOON 600 600;
                      Image_load MARS 640 480; Click_target SATURN] mounted)
      = TARGETS t.
Proof.
  exact (X9_metadata_matches_image
           [Click_target MARS; Image_load MOON 600 600;
            Image_load MARS 640 480; Click_target SATURN]
           (after [Click_target MARS; Image_load MOON 600 600;
                   Image_load MARS 640 480; Click_target SATURN] mounted)
           ltac:(vm_compute; reflexivity)).
Defined.

(** No two targets share a record. *)
Lemma TARGETS_injective (a b : Target) : TARGETS a = TARGETS b -> a = b.
Proof.
  intros H. apply (f_equal ra) in H.
  destruct a, b; try reflexivity; cbn in H; discriminate H.
Qed.

(** A request that settles leaves the other requests in flight. *)
Lemma settle_keeps (t x : Target) (l rest : list Target) :
  settle t l = Some rest -> In x l -> x <> t -> In x rest.
Proof.
  revert rest. induction l as [| y l IH]; intros rest H Hin Hne; [contradiction |].
  cbn [settle] in H. destruct (Target_eqb t y) eqn:E.
  - injection H as <-. destruct Hin as [-> | Hin]; [| exact Hin].
    apply Target_eqb_eq in E. congruence.
  - destruct (settle t l) as [rest' |]; [| discriminate H].
    cbn in H. injection H as <-.
    destruct Hin as [-> | Hin]; [left; reflexivity | right].
    apply (IH rest' eq_refl Hin Hne).
Qed.

(** X10.  Loads are not tied to the selection.  When target [a] is
    selected, then target [b], and the image of [b] arrives before the
    image of [a], the page ends with [b] selected and with the image
    and the metadata of [a] on display. *)
Theorem X10_late_load_wins (s : State) (a b : Target) (wa ha wb hb : nat) :
  a <> target s -> b <> a ->
  exists s' : State,
    run [Click_target a; Click_target b; Image_load b wb hb; Image_load a wa ha] s
      = Some s' /\
    target s' = b /\
    imageRef s' = Some (mkImage (url (TARGETS a)) wa ha) /\
    ephemeris s' = TARGETS a /\
    ephemeris s' <> TARGETS b.
Proof.
  intros Ha Hb.
  set (s1 := selectTarget a s).
  assert (E1 : s1 = imageLoaderEffect (set_target a s)).
  { unfold s1, selectTarget. destruct (Target_eqb a (target s)) eqn:E; [| reflexivity].
    apply Target_eqb_eq in E. contradiction. }
  set (s2 := selectTarget b s1).
  assert (E2 : s2 = imageLoaderEffect (set_target b s1)).
  { unfold s2, selectTarget. rewrite E1 at 1. cbn.
    destruct (Target_eqb b a) eqn:E; [| reflexivity].
    apply Target_eqb_eq in E. contradiction. }
  assert (L2 : loading s2 = (loading s ++ [a]) ++ [b]).
  { rewrite E2. cbn. rewrite E1. reflexivity. }
  assert (T2 : target s2 = b) by (rewrite E2; reflexivity).
  assert (Inb : In b (loading s2))
    by (rewrite L2; apply in_or_app; right; left; reflexivity).
  assert (Ina : In a (loading s2)).
  { rewrite L2. apply in_or_app. left. apply in_or_app. right. left. reflexivity. }
  destruct (settle_pending b (loading s2) Inb) as [rest Sb].
  assert (Ina' : In a rest).
  { apply (settle_keeps b a (loading s2) rest Sb Ina). congruence. }
  set (s3 := onload b wb hb (set_loading rest s2)).
  destruct (settle_pending a rest Ina') as [rest' Sa].
  exists (onload a wa ha (set_loading rest' s3)).
  split.
  { cbn [run step]. fold s1. fold s2. rewrite Sb. fold s3.
    change (loading s3) with rest. rewrite Sa. reflexivity. }
  split; [exact T2 |]. split; [reflexivity |]. split; [reflexivity |].
  cbn. intros H. apply TARGETS_injective in H. congruence.
Qed.

Lemma X10_late_load_wins_witness :
  exists s' : State,
    run [Click_target JUPITER; Click_target MARS; Image_load MARS 640 480;
         Image_load JUPITER 800 800] tracking = Some s' /\
    target s' = MARS /\
    imageRef s' = Some (mkImage (url (TARGETS JUPITER)) 800 800) /\
    ephemeris s' = TARGETS JUPITER /\
    ephemeris s' <> TARGETS MARS.
Proof.
  apply (X10_late_load_wins tracking JUPITER MARS 800%nat 800%nat 640%nat 480%nat).
  - vm_compute. discriminate.
  - discriminate.
Defined.


(** ** The filter button *)

(** X12.  Two clicks on the filter button undo each other: the flag is
    back to what it was and nothing else has changed, except that the
    animation loop is armed.  A single click flips the flag and keeps
    the phase, the canvas, the log and the session. *)
Theorem X12_toggle_twice (s : State) :
  toggleQuantumMode (toggleQuantumMode s) = set_requestRef true s /\
  quantumMode (toggleQuantumMode s) = negb (quantumMode s) /\
  phaseRef (toggleQuantumMode s) = phaseRef s /\
  canvasRef (toggleQuantumMode s) = canvasRef s /\
  logs (toggleQuantumMode s) = logs s /\
  ibmStatus (toggleQuantumMode s) = ibmStatus s /\
  timers (toggleQuantumMode s) = timers s.
Proof.
  unfold toggleQuantumMode, setQuantumMode, frameLoopEffect.
  destruct s as [tg q st lg ep cv rq ph im ck tm ld].
  destruct q; cbn; repeat split; reflexivity.
Qed.

(** ** The session as the log tells it *)

Lemma logUpdater_twice (e e' : LogEntry) (l : list LogEntry) :
  logUpdater e (logUpdater e' l) = firstn 10 (e :: e' :: l).
Proof.
  change (logUpdater e' l) with (firstn 10 (e' :: l)).
  rewrite logUpdater_firstn. reflexivity.
Qed.

(** X13.  A connection made on a page with no timer pending is told by
    the log in three lines: the handshake stamped with the time of the
    click, the queued job 1500 ms later, the allocation 2000 ms after
    that, newest first above the lines that were there, the whole cut
    to ten.  The click that ends the session adds its own line on
    top. *)
Theorem X13_session_log (s : State) :
  ibmStatus s <> ACTIVE -> timers s = [] ->
  exists s3 : State,
    run [Click_connect; Elapse 1500; Timer_fire; Elapse 2000; Timer_fire] s
      = Some s3 /\
    logs s3
      = Js.slice0 10
          (Stamped (clock s + 1500 + 2000) ">> QPU ALLOCATED. QUANTUM KERNEL RUNNING."
           :: Stamped (clock s + 1500)
                ">> AUTHENTICATED. JOB QUEUED: ibmq_manila (5 Qubits)"
           :: Stamped (clock s) ">> HANDSHAKE: IBM QUANTUM CLOUD..."
           :: logs s) /\
    logs (connectToIBM s3)
      = Js.slice0 10
          (Stamped (clock s + 1500 + 2000) "IBM QUANTUM SESSION TERMINATED."
           :: logs s3).
Proof.
  intros Hst Hno.
  set (s1 := connectToIBM s).
  assert (S1 : s1 = setTimeout OnQueued 1500
                      (addLog ">> HANDSHAKE: IBM QUANTUM CLOUD..."
                         (set_ibmStatus CONNECTING s))).
  { unfold s1, connectToIBM. destruct (ibmStatus s); try reflexivity.
    exfalso. apply Hst. reflexivity. }
  assert (T1 : timers s1 = [((clock s + 1500)%nat, OnQueued)])
    by (rewrite S1; cbn; rewrite Hno; reflexivity).
  assert (K1 : clock s1 = clock s) by (rewrite S1; reflexivity).
  assert (L1 : logs s1
               = logUpdater (Stamped (clock s) ">> HANDSHAKE: IBM QUANTUM CLOUD...")
                   (logs s)) by (rewrite S1; reflexivity).
  set (w1 := set_clock (clock s1 + 1500) s1).
  set (s2 := runCallback OnQueued (set_timers [] w1)).
  assert (T2 : timers s2 = [((clock s + 1500 + 2000)%nat, OnAllocated)])
    by (unfold s2, w1; cbn; rewrite K1; reflexivity).
  assert (K2 : clock s2 = (clock s + 1500)%nat)
    by (unfold s2, w1; cbn; rewrite K1; reflexivity).
  assert (L2 : logs s2
               = logUpdater
                   (Stamped (clock s + 1500)
                      ">> AUTHENTICATED. JOB QUEUED: ibmq_manila (5 Qubits)")
                   (logs s1)).
  { unfold s2, w1, runCallback, setTimeout, addLog.
    cbn [logs clock set_logs set_timers set_clock set_ibmStatus].
    rewrite K1. reflexivity. }
  set (w2 := set_clock (clock s2 + 2000) s2).
  set (s3 := runCallback OnAllocated (set_timers [] w2)).
  assert (L3 : logs s3
               = logUpdater
                   (Stamped (clock s + 1500 + 2000)
                      ">> QPU ALLOCATED. QUANTUM KERNEL RUNNING.")
                   (logs s2)).
  { unfold s3, w2, runCallback, setQuantumMode, frameLoopEffect, addLog.
    destruct (Bool.eqb _ _);
      cbn [logs clock set_logs set_timers set_clock set_ibmStatus
           set_requestRef set_quantumMode];
      rewrite K2; reflexivity. }
  assert (K3 : clock s3 = (clock s + 1500 + 2000)%nat).
  { unfold s3, w2, runCallback, setQuantumMode, frameLoopEffect, addLog.
    destruct (Bool.eqb _ _);
      cbn [logs clock set_logs set_timers set_clock set_ibmStatus
           set_requestRef set_quantumMode];
      rewrite K2; reflexivity. }
  assert (I3 : ibmStatus s3 = ACTIVE).
  { unfold s3, runCallback, setQuantumMode. destruct (Bool.eqb _ _); reflexivity. }
  exists s3. split; [| split].
  - cbn [run]. change (step Click_connect s) with (Some s1). cbn iota.
    rewrite (elapse_up_to_due s1 _ _ T1) by lia. fold w1.
    rewrite (fire_when_due w1 _ _ T1) by (unfold w1; cbn [clock set_clock]; lia).
    fold s2.
    rewrite (elapse_up_to_due s2 _ _ T2) by lia. fold w2.
    rewrite (fire_when_due w2 _ _ T2) by (unfold w2; cbn [clock set_clock]; lia).
    reflexivity.
  - rewrite L3, L2, L1.
    rewrite (logUpdater_twice
               (Stamped (clock s + 1500)
                  ">> AUTHENTICATED. JOB QUEUED: ibmq_manila (5 Qubits)")
               (Stamped (clock s) ">> HANDSHAKE: IBM QUANTUM CLOUD...") (logs s)).
    rewrite logUpdater_firstn. reflexivity.
  - unfold connectToIBM. rewrite I3.
    unfold addLog. cbn [logs clock set_logs set_ibmStatus].
    rewrite K3. reflexivity.
Qed.

Lemma X13_session_log_witness :
  exists s3 : State,
    run [Click_connect; Elapse 1500; Timer_fire; Elapse 2000; Timer_fire] tracking
      = Some s3 /\
    logs s3
      = Js.slice0 10
          (Stamped (clock tracking + 1500 + 2000)
             ">> QPU ALLOCATED. QUANTUM KERNEL RUNNING."
           :: Stamped (clock tracking + 1500)
                ">> AUTHENTICATED. JOB QUEUED: ibmq_manila (5 Qubits)"
           :: Stamped (clock tracking) ">> HANDSHAKE: IBM QUANTUM CLOUD..."
           :: logs tracking) /\
    logs (connectToIBM s3)
      = Js.slice0 10
          (Stamped (clock tracking + 1500 + 2000) "IBM QUANTUM SESSION TERMINATED."
           :: logs s3).
Proof.
  apply (X13_session_log tracking).
  - vm_compute. discriminate.
  - reflexivity.
Defined.
